(** * Rule-based scoring engine of the business-plan analyzer

    Shallow embedding of [ai_analysis/src/analyzers/analyzer.py]
    (class [UnifiedBusinessPlanAnalyzer], rule-based path) and the
    properties of its feature extractor, criterion evaluator, aggregator
    and recommendation generator.

    Conventions of the embedding:
    - a Python [str] is the list of its code points ([list N]);
    - a Python [int] is a [Z]; a Python [float] is a rational [Q] (NaN,
      the infinities and the sign of zero are not represented), equality
      of scores is [Qeq];
    - the evaluator's scores are the exact rationals of its formulas
      (small decimal multiples of counts); the arithmetic of the
      recommendation generator, where the last bit of a computed key
      decides the order of two criteria, is binary64 ([F64]: every
      operation rounds to nearest, ties to even);
    - a [dict] with string keys is a [gmap string _]; a subscript [d[k]]
      that raises [KeyError] is a lookup returning [None];
    - a function that can raise returns an [option];
    - wall-clock fields ([evaluation_date], [processing_time]) are left
      out of the result record. *)

From Stdlib Require Import ZArith QArith Qminmax Qabs Lqa Lia Ascii String.
From stdpp Require Import base option list strings gmap pretty sorting.

Local Open Scope Z_scope.

(** ** Python string primitives used by the analyzer *)

Module Py.

Definition str := list N.

(** The Unicode character database behind [str.lower], [str.split],
    [str.strip] and the regex classes [\s] and [\d].  It is not part of
    the repository, so the analyzer is stated for every database. *)
Class CharDB := {
  lower : str → str;
  isspace : N → bool;
  isdecimal : N → bool;
  lower_empty : lower [] = []
}.

(** An ASCII string literal as a [str]. *)
Definition lit (s : string) : str :=
  N_of_ascii <$> list_ascii_of_string s.

(** [s.startswith(sub)] *)
Fixpoint startswith (s sub : str) : bool :=
  match sub, s with
  | [], _ => true
  | _ :: _, [] => false
  | c :: sub', d :: s' => (c =? d)%N && startswith s' sub'
  end.

(** [sub in s] *)
Fixpoint contains (s sub : str) : bool :=
  startswith s sub ||
  match s with
  | [] => false
  | _ :: s' => contains s' sub
  end.

(** Number of non-overlapping matches found scanning left to right, as
    [str.count] and [re.findall] do: [m t] is the length of the match
    that starts at the head of [t], if there is one; [skip] characters
    are still covered by the previous match. *)
Fixpoint scan (m : str → option nat) (s : str) (skip : nat) : Z :=
  match s with
  | [] =>
      match skip, m [] with
      | O, Some _ => 1
      | _, _ => 0
      end
  | _ :: s' =>
      match skip with
      | S k => scan m s' k
      | O =>
          match m s with
          | Some n => 1 + scan m s' (pred n)
          | None => scan m s' 0
          end
      end
  end.

(** [s.count(sub)] *)
Definition count (s sub : str) : Z :=
  scan (λ t, if startswith t sub then Some (length sub) else None) s 0.

Section with_db.
Context `{CharDB}.

(** [s.split()]: the maximal runs of non-whitespace characters;
    [cur] is the current run, reversed. *)
Fixpoint split_ws_go (s cur : str) : list str :=
  match s with
  | [] => match cur with [] => [] | _ => [reverse cur] end
  | c :: s' =>
      if isspace c then
        match cur with
        | [] => split_ws_go s' []
        | _ => reverse cur :: split_ws_go s' []
        end
      else split_ws_go s' (c :: cur)
  end.

Definition split_ws (s : str) : list str := split_ws_go s [].

Fixpoint lstrip (s : str) : str :=
  match s with
  | c :: s' => if isspace c then lstrip s' else s
  | [] => []
  end.

(** [s.strip()] *)
Definition strip (s : str) : str :=
  reverse (lstrip (reverse (lstrip s))).

(** Length of the longest prefix of [s] whose characters satisfy [p]. *)
Fixpoint run_length (p : N → bool) (s : str) : nat :=
  match s with
  | c :: s' => if p c then S (run_length p s') else O
  | [] => O
  end.

(** A match of the regex [\d+] at the head of [s]. *)
Definition match_digits (s : str) : option nat :=
  match run_length isdecimal s with
  | O => None
  | n => Some n
  end.

(** A match of the regex [\d+%] at the head of [s]: the greedy [\d+]
    first tries to take one more digit and gives it back when the
    rest does not match. *)
Fixpoint match_digits_percent (s : str) : option nat :=
  match s with
  | c :: s' =>
      if isdecimal c then
        match match_digits_percent s' with
        | Some n => Some (S n)
        | None =>
            match s' with
            | p :: _ => if (p =? 37)%N then Some 2%nat else None
            | [] => None
            end
        end
      else None
  | [] => None
  end.

Definition is_amount_char (c : N) : bool := isdecimal c || (c =? 44)%N.

(** A match of [\s*[\d,]+] at the head of [s], greedy with
    backtracking on the white space. *)
Fixpoint match_ws_amount (s : str) : option nat :=
  match s with
  | [] => None
  | c :: s' =>
      match (if isspace c then match_ws_amount s' else None) with
      | Some n => Some (S n)
      | None =>
          match run_length is_amount_char s with
          | O => None
          | n => Some n
          end
      end
  end.

(** [$], [€] and [£]. *)
Definition is_currency_symbol (c : N) : bool :=
  (c =? 36)%N || (c =? 8364)%N || (c =? 163)%N.

(** A match of the regex [[$€£]\s*[\d,]+] at the head of [s]. *)
Definition match_currency (s : str) : option nat :=
  match s with
  | c :: s' =>
      if is_currency_symbol c then S <$> match_ws_amount s' else None
  | [] => None
  end.

(** [len(re.findall(pattern, s))] for a pattern given by its matcher. *)
Definition findall_count (m : str → option nat) (s : str) : Z :=
  scan m s 0.

End with_db.

(** [s.split(sep)]: [ValueError] on an empty separator. *)
Fixpoint split_go (sep s cur : str) (skip : nat) : list str :=
  match s with
  | [] => [reverse cur]
  | c :: s' =>
      match skip with
      | S k => split_go sep s' cur k
      | O =>
          if startswith s sep
          then reverse cur :: split_go sep s' [] (pred (length sep))
          else split_go sep s' (c :: cur) 0
      end
  end.

Definition split (s sep : str) : option (list str) :=
  match sep with
  | [] => None
  | _ => Some (split_go sep s [] 0)
  end.

(** [re.split(r'[.!?]+', s)]: the pieces of [s] between the maximal
    runs of characters of the class. *)
Fixpoint re_split_runs_go (cls : N → bool) (s cur : str) (in_run : bool)
  : list str :=
  match s with
  | [] => [reverse cur]
  | c :: s' =>
      if cls c then
        if in_run then re_split_runs_go cls s' cur true
        else reverse cur :: re_split_runs_go cls s' [] true
      else re_split_runs_go cls s' (c :: cur) false
  end.

Definition re_split_runs (cls : N → bool) (s : str) : list str :=
  re_split_runs_go cls s [] false.

(** [len(l)] *)
Definition len {A} (l : list A) : Z := Z.of_nat (length l).

(** The database restricted to ASCII: it agrees with Python on texts
    that only have ASCII characters. *)
Definition ascii_lower_char (c : N) : N :=
  if ((65 <=? c) && (c <=? 90))%N then (c + 32)%N else c.
Definition ascii_isspace (c : N) : bool :=
  ((9 <=? c) && (c <=? 13) || (28 <=? c) && (c <=? 32))%N.
Definition ascii_isdecimal (c : N) : bool :=
  ((48 <=? c) && (c <=? 57))%N.

#[global] Instance ascii_db : CharDB := {|
  lower := map ascii_lower_char;
  isspace := ascii_isspace;
  isdecimal := ascii_isdecimal;
  lower_empty := eq_refl
|}.

End Py.


(** ** Data model *)

(** A value stored in the feature dictionary: the counts are [int]s and
    [has_sections] is a [bool]. *)
Inductive pyval :=
  | PInt (z : Z)
  | PBool (b : bool).

(** A [bool] used in arithmetic is 0 or 1. *)
Definition as_int (v : pyval) : Z :=
  match v with
  | PInt z => z
  | PBool b => if b then 1 else 0
  end.

(** [f"{v}"] *)
Definition format_val (v : pyval) : string :=
  match v with
  | PInt z => pretty z
  | PBool b => if b then "True" else "False"
  end.

(** An entry of [EvaluationCriterion.sub_criteria]. *)
Record SubCriterion := {
  sc_name : string;
  sc_points : Z;
  sc_description : string
}.

Record EvaluationCriterion := {
  c_id : Z;
  c_name : string;
  c_max_points : Z;
  c_description : string;
  c_sub_criteria : list SubCriterion
}.

(** An entry of [EvaluationResult.sub_scores]. *)
Record SubScore := {
  ss_name : string;
  ss_max_points : Z;
  ss_earned_points : Q;
  ss_description : string
}.

Record EvaluationResult := {
  criterion_id : Z;
  criterion_name : string;
  max_points : Z;
  earned_points : Q;
  reasoning : string;
  sub_scores : list SubScore
}.

Record BusinessPlanAnalysis := {
  total_score : Q;
  max_possible_score : Z;
  threshold_used : Z;
  is_eligible : bool;
  criteria_results : list EvaluationResult;
  summary : string;
  recommendations : list string;
  analysis_method : string;
  confidence_score : Q
}.

(** ** The analyzer's configuration ([__init__]) *)

Definition _initialize_criteria : list EvaluationCriterion := [
  {| c_id := 1; c_name := "Équipe"; c_max_points := 10;
     c_description := "Évaluation de l'équipe fondatrice";
     c_sub_criteria := [
       {| sc_name := "Équipe fondatrice identifiée"; sc_points := 3;
          sc_description := "L'équipe fondatrice est-elle clairement identifiée ?" |};
       {| sc_name := "Compétences complémentaires"; sc_points := 4;
          sc_description := "Compétences techniques, business et marketing complémentaires ?" |};
       {| sc_name := "Expérience sectorielle"; sc_points := 3;
          sc_description := "Expérience pertinente dans le secteur d'activité ?" |} ] |};
  {| c_id := 2; c_name := "Problématique identifiée"; c_max_points := 10;
     c_description := "Évaluation de la problématique identifiée";
     c_sub_criteria := [
       {| sc_name := "Problématique réelle et bien définie"; sc_points := 5;
          sc_description := "La problématique est-elle réelle et bien définie ?" |};
       {| sc_name := "Données validantes"; sc_points := 5;
          sc_description := "Données validant l'existence de cette problématique ?" |} ] |};
  {| c_id := 3; c_name := "Solution actuelle sur le marché"; c_max_points := 5;
     c_description := "Connaissance des solutions existantes";
     c_sub_criteria := [
       {| sc_name := "Connaissance des solutions"; sc_points := 3;
          sc_description := "Connaissance claire des solutions existantes ?" |};
       {| sc_name := "Limites identifiées"; sc_points := 2;
          sc_description := "Limites de ces solutions bien identifiées ?" |} ] |};
  {| c_id := 4; c_name := "Solution proposée & Valeur ajoutée"; c_max_points := 15;
     c_description := "Évaluation de la solution et de sa valeur ajoutée";
     c_sub_criteria := [
       {| sc_name := "Solution expliquée clairement"; sc_points := 5;
          sc_description := "La solution est-elle expliquée clairement ?" |};
       {| sc_name := "Innovation"; sc_points := 5;
          sc_description := "Innovation par rapport aux solutions existantes ?" |};
       {| sc_name := "Impact concret"; sc_points := 5;
          sc_description := "Impact ou bénéfice concret pour la clientèle ?" |} ] |};
  {| c_id := 5; c_name := "Feuille de route du produit/service"; c_max_points := 5;
     c_description := "Plan de développement et délais";
     c_sub_criteria := [
       {| sc_name := "Plan de développement"; sc_points := 3;
          sc_description := "Existence d'un plan de développement (MVP, phases futures) ?" |};
       {| sc_name := "Délais réalistes"; sc_points := 2;
          sc_description := "Délais de mise en œuvre réalistes ?" |} ] |};
  {| c_id := 6; c_name := "Clientèle ciblée"; c_max_points := 5;
     c_description := "Définition et taille du marché cible";
     c_sub_criteria := [
       {| sc_name := "Segment bien défini"; sc_points := 3;
          sc_description := "Le segment de clientèle est-il bien défini et cohérent ?" |};
       {| sc_name := "Données quantitatives"; sc_points := 2;
          sc_description := "Taille du marché ou données quantitatives disponibles ?" |} ] |};
  {| c_id := 7; c_name := "Concurrents"; c_max_points := 5;
     c_description := "Analyse de la concurrence";
     c_sub_criteria := [
       {| sc_name := "Analyse des concurrents"; sc_points := 3;
          sc_description := "Analyse des concurrents bien faite (acteurs clés identifiés) ?" |};
       {| sc_name := "Compréhension du marché"; sc_points := 2;
          sc_description := "Compréhension des parts de marché ou des concurrents directs/indirects ?" |} ] |};
  {| c_id := 8; c_name := "Différenciation"; c_max_points := 10;
     c_description := "Avantage concurrentiel";
     c_sub_criteria := [
       {| sc_name := "Avantage concurrentiel"; sc_points := 5;
          sc_description := "Avantage concurrentiel clairement énoncé ?" |};
       {| sc_name := "Difficilement réplicable"; sc_points := 5;
          sc_description := "Avantage difficilement réplicable à court terme ?" |} ] |};
  {| c_id := 9; c_name := "Stratégie de conquête du marché"; c_max_points := 10;
     c_description := "Stratégie go-to-market";
     c_sub_criteria := [
       {| sc_name := "Stratégie go-to-market"; sc_points := 5;
          sc_description := "Stratégie de go-to-market précise (canaux de vente, communication) ?" |};
       {| sc_name := "Partenariats prévus"; sc_points := 3;
          sc_description := "Premiers partenariats ou démarches commerciales prévues ?" |};
       {| sc_name := "Stratégie de fidélisation"; sc_points := 2;
          sc_description := "Stratégie de fidélisation ou de croissance ?" |} ] |};
  {| c_id := 10; c_name := "Modèle de business"; c_max_points := 10;
     c_description := "Modèle économique et génération de revenus";
     c_sub_criteria := [
       {| sc_name := "Modèle économique clair"; sc_points := 5;
          sc_description := "Modèle économique clair (B2B, B2C, SaaS, abonnement, etc.) ?" |};
       {| sc_name := "Génération de revenus"; sc_points := 5;
          sc_description := "Logique de génération de revenus réaliste ?" |} ] |};
  {| c_id := 11; c_name := "Financements détaillés"; c_max_points := 10;
     c_description := "Plan financier et besoins de financement";
     c_sub_criteria := [
       {| sc_name := "P&L"; sc_points := 5;
          sc_description := "Mise en place d'un P&L ?" |};
       {| sc_name := "Besoins de financement"; sc_points := 3;
          sc_description := "Estimation des besoins de financement ?" |};
       {| sc_name := "Sources de financement"; sc_points := 2;
          sc_description := "Sources de financement prévues ?" |} ] |};
  {| c_id := 12; c_name := "Statut juridique de l'entreprise"; c_max_points := 5;
     c_description := "Statut juridique et conformité légale";
     c_sub_criteria := [
       {| sc_name := "Statut juridique"; sc_points := 3;
          sc_description := "Statut juridique actuel ou prévu ?" |};
       {| sc_name := "Conformité légale"; sc_points := 2;
          sc_description := "Conformité aux exigences légales pour l'activité visée ?" |} ] |}
].

Definition threshold : Z := 60.

Definition _load_business_keywords : gmap string (list Py.str) :=
  list_to_map [
    ("financial", Py.lit <$> ["revenue"; "profit"; "cost"; "funding"; "investment";
                              "financial"; "budget"; "cash flow"; "roi"]);
    ("market", Py.lit <$> ["market"; "customer"; "target"; "segment"; "competition";
                           "industry"; "demand"; "supply"]);
    ("strategy", Py.lit <$> ["strategy"; "plan"; "goal"; "objective"; "milestone";
                             "timeline"; "execution"; "implementation"]);
    ("team", Py.lit <$> ["team"; "founder"; "management"; "experience"; "expertise";
                         "leadership"; "staff"]);
    ("product", Py.lit <$> ["product"; "service"; "solution"; "innovation";
                            "technology"; "feature"; "development"]);
    ("risk", Py.lit <$> ["risk"; "threat"; "challenge"; "mitigation"; "contingency";
                         "uncertainty"; "vulnerability"]);
    ("professional", Py.lit <$> ["analysis"; "research"; "methodology"; "framework";
                                 "assessment"; "evaluation"; "metrics"; "kpi"]);
    ("positive", Py.lit <$> ["strong"; "excellent"; "innovative"; "unique";
                             "competitive"; "scalable"; "profitable"; "growth"]);
    ("negative", Py.lit <$> ["weak"; "poor"; "limited"; "risky"; "unclear";
                             "uncertain"; "difficult"; "challenging"])
  ].

(** [sum(...)] over integers and over scores: a left fold from 0. *)
Definition sum_Z (l : list Z) : Z := fold_left Z.add l 0.
Definition sum_Q (l : list Q) : Q := fold_left Qplus l 0%Q.

(** [x < y] on scores. *)
Definition Qltb (x y : Q) : bool := negb (Qle_bool y x).
Arguments Qltb (x y)%_Q_scope.

(** [f"{x:.1f}"]: [x] rounded to one decimal, ties to even. *)
Definition format_1f (x : Q) : string :=
  let t := Z.abs (Qnum x) * 10 in
  let d := Z.pos (Qden x) in
  let q := t / d in
  let r := t mod d in
  let tenths :=
    if 2 * r <? d then q
    else if d <? 2 * r then q + 1
    else if Z.even q then q else q + 1 in
  (if Qnum x <? 0 then "-" else "")
  +:+ pretty (tenths / 10) +:+ "." +:+ pretty (tenths mod 10).

(** ** Binary64 arithmetic

    The finite values of a Python [float] are the rationals [m * 2 ^ p]
    with [|m| < 2 ^ 53] and [-1074 <= p]; an operation returns the value
    nearest to the exact result, ties going to the even significand.
    Overflow to an infinity (results of magnitude [2 ^ 1024] and more)
    is not modelled. *)

Module F64.

(** The integer nearest to [q], ties to the even one. *)
Definition round_half_even (q : Q) : Z :=
  let d := Z.pos (Qden q) in
  let f := Qnum q / d in
  let r := Qnum q mod d in
  if 2 * r <? d then f
  else if d <? 2 * r then f + 1
  else if Z.even f then f else f + 1.

(** [2 ^ e] for an exponent of either sign. *)
Definition pow2 (e : Z) : Q :=
  if 0 <=? e then inject_Z (2 ^ e) else 1 # Z.to_pos (2 ^ (- e)).

(** [floor (log2 q)] for a positive [q]. *)
Definition ilog2 (q : Q) : Z :=
  let e := Z.log2 (Qnum q) - Z.log2 (Z.pos (Qden q)) in
  if Qle_bool (pow2 e) q then e else e - 1.

(** The binary64 number nearest to [q], ties to even: 53 significant
    bits, and multiples of [2 ^ -1074] in the subnormal range. *)
Definition round (q : Q) : Q :=
  let q := Qred q in
  if Qnum q =? 0 then 0%Q
  else
    let a := Qabs q in
    let p := Z.max (ilog2 a - 52) (-1074) in
    let m := round_half_even (a / pow2 p) in
    Qred (inject_Z (Z.sgn (Qnum q) * m) * pow2 p).

(** [float(z)], and the operators on floats. *)
Definition of_int (z : Z) : Q := round (inject_Z z).
Definition mul (x y : Q) : Q := round (x * y).
Definition div (x y : Q) : Q := round (x / y).
Definition sub (x y : Q) : Q := round (x - y).

End F64.

(** ** The rule-based engine *)

Section Analyzer.
Context `{Py.CharDB}.

(** [_count_terms] *)
Definition _count_terms (text : Py.str) (terms : list Py.str) : Z :=
  sum_Z ((λ term, Py.count text term) <$> terms).

(** [_check_sections] *)
Definition _check_sections (text : Py.str) : bool :=
  let section_indicators :=
    Py.lit <$> ["executive summary"; "market analysis"; "financial";
                "business model"; "strategy"] in
  existsb (λ indicator, Py.contains (Py.lower text) indicator)
          section_indicators.

(** The class [[.!?]] of the sentence splitter. *)
Definition is_sentence_mark (c : N) : bool :=
  ((c =? 46) || (c =? 33) || (c =? 63))%N.

(** [bool(p.strip())] *)
Definition nonblank (p : Py.str) : bool :=
  match Py.strip p with
  | [] => false
  | _ => true
  end.

(** [_perform_comprehensive_analysis]: the feature dictionary of a text.
    The subscripts of [self.business_keywords] are the only operations
    that can raise. *)
Definition _perform_comprehensive_analysis (text : Py.str)
  : option (gmap string pyval) :=
  let text_lower := Py.lower text in
  let kw := _load_business_keywords in
  paragraphs ← Py.split text [10%N; 10%N];
  financial ← kw !! "financial";
  market ← kw !! "market";
  strategy ← kw !! "strategy";
  team ← kw !! "team";
  product ← kw !! "product";
  risk ← kw !! "risk";
  professional ← kw !! "professional";
  positive ← kw !! "positive";
  negative ← kw !! "negative";
  Some (list_to_map [
    ("text_length", PInt (Py.len text));
    ("word_count", PInt (Py.len (Py.split_ws text)));
    ("sentence_count", PInt (Py.len (Py.re_split_runs is_sentence_mark text)));
    ("paragraph_count", PInt (Py.len (filter (λ p, nonblank p = true) paragraphs)));
    ("financial_terms", PInt (_count_terms text_lower financial));
    ("market_terms", PInt (_count_terms text_lower market));
    ("strategy_terms", PInt (_count_terms text_lower strategy));
    ("team_terms", PInt (_count_terms text_lower team));
    ("product_terms", PInt (_count_terms text_lower product));
    ("risk_terms", PInt (_count_terms text_lower risk));
    ("has_sections", PBool (_check_sections text));
    ("has_numbers", PInt (Py.findall_count Py.match_digits text));
    ("has_percentages", PInt (Py.findall_count Py.match_digits_percent text));
    ("has_currency", PInt (Py.findall_count Py.match_currency text));
    ("professional_terms", PInt (_count_terms text_lower professional));
    ("positive_sentiment", PInt (_count_terms text_lower positive));
    ("negative_sentiment", PInt (_count_terms text_lower negative))
  ]).

(** The key [f"criterion_{criterion.id}_terms"] of the generic branch. *)
Definition generic_key (cid : Z) : string :=
  "criterion_" +:+ pretty cid +:+ "_terms".

(** [analysis_data.get(key, 0)] *)
Definition dict_get (d : gmap string pyval) (key : string) (dflt : pyval)
  : pyval :=
  default dflt (d !! key).

(** The branch of [_evaluate_criterion_with_rules] on [criterion.id]:
    the earned points ([team_score] in the source) and the reasoning. *)
Definition criterion_score (criterion : EvaluationCriterion)
    (text_lower : Py.str) (analysis_data : gmap string pyval)
  : option (Q * string) :=
  let cap := inject_Z (c_max_points criterion) in
  if c_id criterion =? 1 then
    team_terms ← analysis_data !! "team_terms";
    Some (Qmin (inject_Z (as_int team_terms) * (3 # 10)) cap,
          "Team indicators found: " +:+ format_val team_terms)
  else if c_id criterion =? 2 then
    let problem_indicators :=
      Py.count text_lower (Py.lit "probl" ++ [232%N] ++ Py.lit "me")
      + Py.count text_lower (Py.lit "problem")
      + Py.count text_lower (Py.lit "besoin") in
    Some (Qmin (inject_Z (problem_indicators * 2)) cap,
          "Problem indicators: " +:+ pretty problem_indicators)
  else if c_id criterion =? 4 then
    let solution_score :=
      Py.count text_lower (Py.lit "solution")
      + Py.count text_lower (Py.lit "innovation") in
    Some (Qmin (inject_Z solution_score * (15 # 10)) cap,
          "Solution indicators: " +:+ pretty solution_score)
  else if c_id criterion =? 10 then
    financial_terms ← analysis_data !! "financial_terms";
    has_currency ← analysis_data !! "has_currency";
    let business_score :=
      as_int financial_terms
      + (if 0 <? as_int has_currency then 1 else 0) * 3 in
    Some (Qmin (inject_Z business_score * (8 # 10)) cap,
          "Business model indicators: " +:+ pretty business_score)
  else if c_id criterion =? 11 then
    financial_terms ← analysis_data !! "financial_terms";
    has_currency ← analysis_data !! "has_currency";
    has_percentages ← analysis_data !! "has_percentages";
    let financial_score :=
      as_int financial_terms + as_int has_currency
      + as_int has_percentages in
    Some (Qmin (inject_Z financial_score * (6 # 10)) cap,
          "Financial indicators: " +:+ pretty financial_score)
  else
    let relevant_terms :=
      dict_get analysis_data (generic_key (c_id criterion)) (PInt 0) in
    Some (Qmin (inject_Z (as_int relevant_terms) * 1) cap,
          "Generic scoring based on relevance").

(** One iteration of the sub-score loop; the division raises
    [ZeroDivisionError] when [criterion.max_points] is 0. *)
Definition sub_score_of (team_score : Q) (cmax : Z) (sub : SubCriterion)
  : option SubScore :=
  if cmax =? 0 then None
  else Some {| ss_name := sc_name sub;
               ss_max_points := sc_points sub;
               ss_earned_points :=
                 ((team_score / inject_Z cmax) * inject_Z (sc_points sub))%Q;
               ss_description := sc_description sub |}.

(** [_evaluate_criterion_with_rules] *)
Definition _evaluate_criterion_with_rules (criterion : EvaluationCriterion)
    (text : Py.str) (analysis_data : gmap string pyval)
  : option EvaluationResult :=
  let text_lower := Py.lower text in
  '(team_score, reasoning) ← criterion_score criterion text_lower analysis_data;
  sub_scores ← mapM (sub_score_of team_score (c_max_points criterion))
                    (c_sub_criteria criterion);
  Some {| criterion_id := c_id criterion;
          criterion_name := c_name criterion;
          max_points := c_max_points criterion;
          earned_points := team_score;
          reasoning := reasoning;
          sub_scores := sub_scores |}.

(** An entry of the list [weak_criteria]. *)
Record WeakCriterion := {
  w_id : Z;
  w_name : string;
  w_performance : Q;
  w_points : Q;
  w_max_points : Z
}.

(** [performance_pct] of a criterion result: a float division and a
    float multiplication, or the integer 0. *)
Definition performance_pct (cr : EvaluationResult) : Q :=
  if 0 <? max_points cr
  then F64.mul (F64.div (earned_points cr) (F64.of_int (max_points cr))) 100
  else 0%Q.

(** The body of the loop that collects the weak criteria. *)
Definition weak_entry (cr : EvaluationResult) : option WeakCriterion :=
  let performance_pct := performance_pct cr in
  if Qltb performance_pct 70 then
    Some {| w_id := criterion_id cr;
            w_name := criterion_name cr;
            w_performance := performance_pct;
            w_points := earned_points cr;
            w_max_points := max_points cr |}
  else None.

(** The sort key [(max_points * (70 - performance), max_points)]: a
    float subtraction, then a float multiplication by [max_points]. *)
Definition sort_key (x : WeakCriterion) : Q * Z :=
  (F64.mul (F64.of_int (w_max_points x)) (F64.sub 70 (w_performance x)),
   w_max_points x).

(** Python's order on the key tuples. *)
Definition key_lt (a b : Q * Z) : bool :=
  Qltb a.1 b.1 || (Qeq_bool a.1 b.1 && (a.2 <? b.2)).

(** [list.sort(key=..., reverse=True)]: a stable sort, largest key
    first; entries with equal keys keep their order. *)
Fixpoint insert_desc (x : WeakCriterion) (l : list WeakCriterion)
  : list WeakCriterion :=
  match l with
  | [] => [x]
  | y :: l' =>
      if key_lt (sort_key x) (sort_key y)
      then y :: insert_desc x l'
      else x :: l
  end.

Definition sort_desc (l : list WeakCriterion) : list WeakCriterion :=
  foldr insert_desc [] l.

(** The priority label of [_generate_specific_recommendation]. *)
Definition priority_of (weak_criterion : WeakCriterion) : string :=
  let performance := w_performance weak_criterion in
  if (10 <=? w_max_points weak_criterion) && Qltb performance 40
  then "CRITIQUE"
  else if (10 <=? w_max_points weak_criterion) || Qltb performance 50
  then "HAUTE"
  else if Qltb performance 60 then "MOYENNE"
  else "FAIBLE".

(** [recommendations_map]: title and content per criterion id; [score]
    is [f"{points:.1f}/{max_points}"]. *)
Definition recommendations_map (score : string) (cid : Z)
  : option (string * string) :=
  if cid =? 1 then Some
    ("Renforcement de l'équipe fondatrice",
     "Votre équipe score " +:+ score +:+ ". Identifiez précisément les compétences manquantes (technique, commercial, secteur). Recrutez un co-fondateur expérimenté ou constituez un advisory board avec 3-5 experts sectoriels. Documentez les CV, répartition des parts, et plan de recrutement sur 18 mois.")
  else if cid =? 2 then Some
    ("Validation de la problématique marché",
     "La problématique identifiée manque de validation (" +:+ score +:+ "). Menez 50+ interviews clients, créez des personas détaillés, quantifiez la douleur (coût actuel du problème). Ajoutez des statistiques sectorielles, études de marché, et témoignages clients pour crédibiliser votre analyse.")
  else if cid =? 3 then Some
    ("Analyse concurrentielle approfondie",
     "L'analyse des solutions existantes est insuffisante (" +:+ score +:+ "). Mappez 10-15 concurrents directs/indirects, analysez leurs prix, fonctionnalités, faiblesses. Créez une matrice de positionnement et identifiez votre 'white space' concurrentiel unique.")
  else if cid =? 4 then Some
    ("Clarification de la proposition de valeur",
     "La solution manque de clarté (" +:+ score +:+ "). Reformulez votre value proposition en une phrase claire. Créez un prototype/MVP testable, définissez 3-5 features core, et mesurez l'amélioration quantifiable apportée (temps gagné, coût réduit, revenus générés).")
  else if cid =? 5 then Some
    ("Structuration de la roadmap produit",
     "Le planning de développement nécessite plus de précision (" +:+ score +:+ "). Définissez des jalons trimestriels avec métriques de validation (utilisateurs, revenus, fonctionnalités). Planifiez MVP à 3 mois, version Beta à 6 mois, version commerciale à 12 mois avec budgets associés.")
  else if cid =? 6 then Some
    ("Segmentation et sizing du marché cible",
     "Le marché cible manque de précision (" +:+ score +:+ "). Segmentez en 2-3 personas détaillés avec taille, pouvoir d'achat, processus de décision. Quantifiez le TAM/SAM/SOM avec sources fiables et stratégie de pénétration progressive.")
  else if cid =? 7 then Some
    ("Intelligence concurrentielle stratégique",
     "L'analyse concurrentielle est incomplète (" +:+ score +:+ "). Identifiez les leaders, challengers, et niches players. Analysez leurs levées de fonds, stratégies de croissance, points faibles exploitables. Positionnez-vous sur un axe de différenciation défendable.")
  else if cid =? 8 then Some
    ("Construction d'avantages concurrentiels durables",
     "La différenciation n'est pas assez marquée (" +:+ score +:+ "). Identifiez 2-3 barrières à l'entrée créables (brevets, data network effects, partnerships exclusifs). Développez une stratégie de protection de votre avantage concurrentiel sur 3-5 ans.")
  else if cid =? 9 then Some
    ("Stratégie de conquête marché structurée",
     "La stratégie commerciale manque de structure (" +:+ score +:+ "). Définissez 2-3 canaux d'acquisition prioritaires, coût d'acquisition client target, stratégie de pricing, et plan de vente sur 24 mois avec objectifs chiffrés par trimestre.")
  else if cid =? 10 then Some
    ("Optimisation du modèle économique",
     "Le modèle économique nécessite plus de rigueur (" +:+ score +:+ "). Clarifiez les sources de revenus, unit economics (LTV/CAC ratio > 3), seuils de rentabilité, et scenarii de scaling. Modélisez 3 hypothèses (conservateur/réaliste/optimiste).")
  else if cid =? 11 then Some
    ("Plan de financement et projections financières",
     "Le plan financier manque de détails (" +:+ score +:+ "). Construisez un P&L sur 3 ans, cash-flow mensuel année 1, besoins de financement détaillés par poste. Identifiez 4-5 sources de financement potentielles avec timeline de levée.")
  else if cid =? 12 then Some
    ("Structuration juridique et compliance",
     "Les aspects juridiques doivent être formalisés (" +:+ score +:+ "). Choisissez la forme juridique optimale (SARL/SAS), répartition du capital, pacte d'actionnaires, et compliance sectorielle. Consultez un avocat spécialisé startups.")
  else None.

(** [_generate_specific_recommendation]; [None] for an id without a
    template. *)
Definition _generate_specific_recommendation
    (weak_criterion : WeakCriterion) (analysis_data : gmap string pyval)
  : option string :=
  let criterion_id := w_id weak_criterion in
  let priority := priority_of weak_criterion in
  let score := format_1f (w_points weak_criterion) +:+ "/"
               +:+ pretty (w_max_points weak_criterion) in
  '(title, content) ← recommendations_map score criterion_id;
  Some (priority +:+ " - " +:+ title +:+ ": " +:+ content).

(** [if rec:] keeps a recommendation that is neither [None] nor empty. *)
Definition truthy (rec : option string) : option string :=
  match rec with
  | Some EmptyString => None
  | _ => rec
  end.

(** [_generate_general_recommendations] *)
Definition _generate_general_recommendations
    (analysis_data : gmap string pyval)
    (criteria_results : list EvaluationResult) : option (list string) :=
  let total_score := sum_Q (earned_points <$> criteria_results) in
  word_count ← analysis_data !! "word_count";
  has_currency ← analysis_data !! "has_currency";
  professional_terms ← analysis_data !! "professional_terms";
  Some (
    (if as_int word_count <? 1500 then
       ["MOYENNE - Développement du business plan: Étoffez votre business plan avec plus de détails sur chaque section. Visez 3000-5000 mots avec données quantifiées, études de marché, et projections financières détaillées."]
     else [])
    ++ (if as_int has_currency =? 0 then
       ["HAUTE - Ajout d'éléments financiers: Intégrez des données financières concrètes (chiffre d'affaires prévisionnel, coûts, investissements requis). Les investisseurs ont besoin de chiffres précis pour évaluer la viabilité."]
     else [])
    ++ (if Qltb total_score 40 then
       ["CRITIQUE - Retravailler les fondamentaux: Le score global nécessite une révision complète. Focalisez-vous sur les 4 piliers: équipe, marché, solution, et modèle économique. Consultez un mentor ou expert pour guidance."]
     else [])
    ++ (if as_int professional_terms <? 5 then
       ["MOYENNE - Professionnalisation du discours: Utilisez un vocabulaire business plus précis (KPI, metrics, addressable market, value proposition). Cela démontre votre maturité entrepreneuriale aux investisseurs."]
     else [])).

(** The specific recommendations: one per entry of [weak_criteria[:5]]
    that has a template. *)
Definition specific_recommendations (weak_criteria : list WeakCriterion)
    (analysis_data : gmap string pyval) : list string :=
  omap (λ criterion,
          truthy (_generate_specific_recommendation criterion analysis_data))
       (take 5 weak_criteria).

(** [_generate_rule_based_recommendations] *)
Definition _generate_rule_based_recommendations
    (criteria_results : list EvaluationResult)
    (analysis_data : gmap string pyval) : option (list string) :=
  let weak_criteria := sort_desc (omap weak_entry criteria_results) in
  let recommendations :=
    specific_recommendations weak_criteria analysis_data in
  recommendations ←
    (if (length recommendations <? 3)%nat then
       general_recs ←
         _generate_general_recommendations analysis_data criteria_results;
       Some (recommendations ++ general_recs)
     else Some recommendations);
  Some (take 6 recommendations).

(** [_generate_summary] *)
Definition _generate_summary (total_score : Q) (is_eligible : bool)
  : string :=
  if is_eligible then
    "Business plan évalué à " +:+ format_1f total_score
    +:+ "/100. Score ≥ 60/100. ACCEPTÉ pour l'incubation."
  else
    "Business plan évalué à " +:+ format_1f total_score
    +:+ "/100. Score < 60/100. REFUSÉ pour l'incubation. Améliorations nécessaires.".

(** The loop of [_analyze_with_rules] over [self.criteria], with its two
    accumulators. *)
Fixpoint evaluate_all (criteria : list EvaluationCriterion)
    (text : Py.str) (analysis_data : gmap string pyval)
    (criteria_results : list EvaluationResult) (total_score : Q)
  : option (list EvaluationResult * Q) :=
  match criteria with
  | [] => Some (criteria_results, total_score)
  | criterion :: rest =>
      result ← _evaluate_criterion_with_rules criterion text analysis_data;
      evaluate_all rest text analysis_data
                   (criteria_results ++ [result])
                   (total_score + earned_points result)%Q
  end.

(** [_analyze_with_rules] *)
Definition _analyze_with_rules (text : Py.str)
  : option BusinessPlanAnalysis :=
  analysis_data ← _perform_comprehensive_analysis text;
  '(criteria_results, total_score) ←
    evaluate_all _initialize_criteria text analysis_data [] 0%Q;
  let is_eligible := Qle_bool (inject_Z threshold) total_score in
  let summary := _generate_summary total_score is_eligible in
  recommendations ←
    _generate_rule_based_recommendations criteria_results analysis_data;
  Some {| total_score := total_score;
          max_possible_score := 100;
          threshold_used := threshold;
          is_eligible := is_eligible;
          criteria_results := criteria_results;
          summary := summary;
          recommendations := recommendations;
          analysis_method := "rule_based_comprehensive";
          confidence_score := 85%Q |}.

End Analyzer.

(** ** Notions used in the statements *)

(** The feature [key] is present in [d] and is a non-negative count. *)
Definition has_count (d : gmap string pyval) (key : string) : Prop :=
  ∃ n, d !! key = Some (PInt n) ∧ 0 ≤ n.

(** What the evaluator and the recommendation generator need from a
    feature dictionary: the counts they subscript are there, and there is
    no per-criterion entry. *)
Record feature_bag (d : gmap string pyval) : Prop := {
  fb_team_terms : has_count d "team_terms";
  fb_financial_terms : has_count d "financial_terms";
  fb_has_currency : has_count d "has_currency";
  fb_has_percentages : has_count d "has_percentages";
  fb_word_count : has_count d "word_count";
  fb_professional_terms : has_count d "professional_terms";
  fb_no_criterion_terms : ∀ cid, d !! generic_key cid = None
}.

(** The criterion ids that have a scoring formula of their own. *)
Definition dedicated (cid : Z) : bool :=
  (cid =? 1) || (cid =? 2) || (cid =? 4) || (cid =? 10) || (cid =? 11).

(** The weighted deficit of a weak criterion,
    [max_points * (70 - performance)], as a float. *)
Definition deficit (x : WeakCriterion) : Q :=
  F64.mul (F64.of_int (w_max_points x)) (F64.sub 70 (w_performance x)).


(** A binary64 number. *)
Definition binary64 (q : Q) : Prop := (F64.round q == q)%Q.

(** The criterion results on which the generator's arithmetic is the one
    of [F64]: the earned points are a float, and both numbers are at most
    [2 ^ 40] in magnitude, so that [max_points] and [max_points * 70] are
    floats and no operation overflows. *)
Definition float_score (cr : EvaluationResult) : Prop :=
  binary64 (earned_points cr)
  ∧ (Qabs (earned_points cr) <= inject_Z (2 ^ 40))%Q
  ∧ Z.abs (max_points cr) ≤ 2 ^ 40.

(** An integer that [float(...)] converts, with room for the sum of a few
    of them: from about [2 ^ 1024] on the conversion raises
    [OverflowError]. *)
Definition float_convertible (z : Z) : Prop := Z.abs z < 2 ^ 1000.

(** A text of ASCII characters. *)
Definition ascii_text (s : Py.str) : Prop := Forall (λ c, (c < 128)%N) s.

(** [a] may stand before [b] in the ranking: a larger deficit first, and
    for equal deficits the larger [max_points] first. *)
Definition ranks_before (a b : WeakCriterion) : Prop :=
  (deficit b < deficit a)%Q
  ∨ ((deficit a == deficit b)%Q ∧ w_max_points b ≤ w_max_points a).

(** The three features that the general recommendations subscript. *)
Definition general_keys_present (d : gmap string pyval) : Prop :=
  is_Some (d !! "word_count") ∧ is_Some (d !! "has_currency")
  ∧ is_Some (d !! "professional_terms").

(** The points a criterion can earn on the rule-based path: its maximum
    when it has a formula of its own, nothing otherwise. *)
Definition rule_cap (c : EvaluationCriterion) : Q :=
  if dedicated (c_id c) then inject_Z (c_max_points c) else 0%Q.


(** Every numeric feature of [d] is zero and every boolean one is false. *)
Definition all_zero_or_false (d : gmap string pyval) : Prop :=
  map_Forall (λ _ v, v = PInt 0 ∨ v = PBool false) d.

(** The features in the order of the dictionary literal. *)
Definition feature_keys : list string :=
  ["text_length"; "word_count"; "sentence_count"; "paragraph_count";
   "financial_terms"; "market_terms"; "strategy_terms"; "team_terms";
   "product_terms"; "risk_terms"; "has_sections"; "has_numbers";
   "has_percentages"; "has_currency"; "professional_terms";
   "positive_sentiment"; "negative_sentiment"].

(** ** Sample inputs *)

(** The criterion of the grid at position [i]. *)
Definition criterion_at (i : nat) : EvaluationCriterion :=
  nth i _initialize_criteria
      {| c_id := 0; c_name := ""; c_max_points := 0; c_description := "";
         c_sub_criteria := [] |}.

Definition short_plan : Py.str := Py.lit "a short business plan".

(** Fifty words that use terms of all nine keyword categories, an amount
    and a percentage. *)
Definition dense_paragraph : string :=
  "Our team and founder bring strong experience to a growth market. Customers face a problem and need our solution, an innovation in product technology. Revenue and profit follow a strategy and plan. We assess risk and challenge with research and analysis, although funding is limited. Budget: $500,000 with 15% margin. ".

(** A keyword-dense plan of 5000 words. *)
Definition dense_plan : Py.str :=
  mjoin (replicate 100 (Py.lit dense_paragraph)).



(** A criterion result with the given id, maximum and earned points. *)
Definition result_of (cid cmax : Z) (earned : Q) : EvaluationResult :=
  {| criterion_id := cid; criterion_name := ""; max_points := cmax;
     earned_points := earned; reasoning := ""; sub_scores := [] |}.


(** Six weak criteria, three of them with an id that has no
    recommendation template. *)
Definition close_results : list EvaluationResult :=
  [result_of 90 100 0; result_of 91 100 0; result_of 1 10 0;
   result_of 2 10 0; result_of 4 15 8; result_of 93 5 1].

(** ** The entry point and further notions *)

(** The exceptions that reach a caller of [analyze_business_plan];
    [EngineError] stands for any exception raised inside the rule-based
    path ([KeyError], [ZeroDivisionError]). *)
Inductive exception :=
  | NotImplementedError
  | ValueError
  | EngineError.

(** [_analyze_with_ai]: the integration is not part of the class. *)
Definition _analyze_with_ai (text : Py.str)
  : exception + BusinessPlanAnalysis :=
  inl NotImplementedError.

Section EntryPoint.
Context `{Py.CharDB}.

(** [analyze_business_plan]; in mode [auto] every exception of the AI
    path is caught and the rule-based path is taken. *)
Definition analyze_business_plan (text : Py.str) (method : string)
  : exception + BusinessPlanAnalysis :=
  let with_rules :=
    match _analyze_with_rules text with
    | Some analysis => inr analysis
    | None => inl EngineError
    end in
  if String.eqb method "auto" then
    match _analyze_with_ai text with
    | inr analysis => inr analysis
    | inl _ => with_rules
    end
  else if String.eqb method "ai" then _analyze_with_ai text
  else if String.eqb method "rule_based" then with_rules
  else inl ValueError.

End EntryPoint.

(** The terms of a keyword category, [[]] for an unknown category. *)
Definition keywords_of (category : string) : list Py.str :=
  default [] (_load_business_keywords !! category).

Section FeatureValues.
Context `{Py.CharDB}.

(** The values of the features of a text, in the order of
    [feature_keys]. *)
Definition feature_values (text : Py.str) : list pyval :=
  let text_lower := Py.lower text in
  [PInt (Py.len text);
   PInt (Py.len (Py.split_ws text));
   PInt (Py.len (Py.re_split_runs is_sentence_mark text));
   PInt (Py.len (filter (λ p, nonblank p = true)
                        (Py.split_go [10%N; 10%N] text [] 0)));
   PInt (_count_terms text_lower (keywords_of "financial"));
   PInt (_count_terms text_lower (keywords_of "market"));
   PInt (_count_terms text_lower (keywords_of "strategy"));
   PInt (_count_terms text_lower (keywords_of "team"));
   PInt (_count_terms text_lower (keywords_of "product"));
   PInt (_count_terms text_lower (keywords_of "risk"));
   PBool (_check_sections text);
   PInt (Py.findall_count Py.match_digits text);
   PInt (Py.findall_count Py.match_digits_percent text);
   PInt (Py.findall_count Py.match_currency text);
   PInt (_count_terms text_lower (keywords_of "professional"));
   PInt (_count_terms text_lower (keywords_of "positive"));
   PInt (_count_terms text_lower (keywords_of "negative"))].

End FeatureValues.

(** The features that the formula of criterion [cid] subscripts. *)
Definition required_keys (cid : Z) : list string :=
  if cid =? 1 then ["team_terms"]
  else if cid =? 10 then ["financial_terms"; "has_currency"]
  else if cid =? 11 then ["financial_terms"; "has_currency"; "has_percentages"]
  else [].

(** The number of indicators from which criterion [cid] earns its
    maximum on the grid. *)
Definition full_marks_from (cid : Z) : Z :=
  if cid =? 1 then 34
  else if cid =? 2 then 5
  else if cid =? 4 then 10
  else if cid =? 10 then 13
  else 17.

(** The four priority labels. *)
Definition priority_labels : list string :=
  ["CRITIQUE"; "HAUTE"; "MOYENNE"; "FAIBLE"].



(** A text of blanks, tabs and line breaks. *)
Definition blank_text : Py.str := [32; 9; 10; 10; 32; 13; 32]%N.

(** The number of indicators that the formula of criterion [cid] scales:
    the subscripted features for criteria 1, 10 and 11, substring counts
    in the lower-cased text for criteria 2 and 4. *)
Definition indicators (cid : Z) (text_lower : Py.str)
    (d : gmap string pyval) : Z :=
  let feature key := as_int (default (PInt 0) (d !! key)) in
  if cid =? 1 then feature "team_terms"
  else if cid =? 2 then
    Py.count text_lower (Py.lit "probl" ++ [232%N] ++ Py.lit "me")
    + Py.count text_lower (Py.lit "problem")
    + Py.count text_lower (Py.lit "besoin")
  else if cid =? 4 then
    Py.count text_lower (Py.lit "solution")
    + Py.count text_lower (Py.lit "innovation")
  else if cid =? 10 then
    feature "financial_terms"
    + (if 0 <? feature "has_currency" then 1 else 0) * 3
  else
    feature "financial_terms" + feature "has_currency"
    + feature "has_percentages".

(** The points per indicator of criterion [cid]. *)
Definition weight (cid : Z) : Q :=
  if cid =? 1 then 3 # 10
  else if cid =? 2 then 2
  else if cid =? 4 then 15 # 10
  else if cid =? 10 then 8 # 10
  else 6 # 10.

(** A text of ASCII white space only. *)
Definition blank (s : Py.str) : Prop :=
  Forall (λ c, Py.ascii_isspace c = true) s.

(** A term that begins with a character other than ASCII white space. *)
Definition starts_with_mark (t : Py.str) : Prop :=
  match t with
  | c :: _ => Py.ascii_isspace c = false
  | [] => False
  end.

(** Two characters that are the same up to the case of ASCII letters,
    and a character class that does not tell them apart. *)
Definition same_letter (a b : N) : Prop :=
  Py.ascii_lower_char a = Py.ascii_lower_char b.

Definition caseless (p : N → bool) : Prop :=
  ∀ a b, same_letter a b → p a = p b.

(** Weak criteria in ranking order, the first two with equal keys. *)
Definition ranked_sample : list WeakCriterion := [
  {| w_id := 8; w_name := "Différenciation"; w_performance := 0;
     w_points := 0; w_max_points := 10 |};
  {| w_id := 9; w_name := "Stratégie de conquête du marché";
     w_performance := 0; w_points := 0; w_max_points := 10 |};
  {| w_id := 3; w_name := "Solution actuelle sur le marché";
     w_performance := 20; w_points := 1; w_max_points := 5 |} ].

(** The same plan in capitals and in small letters. *)
Definition shouting_plan : Py.str :=
  Py.lit "OUR TEAM HAS A SOLUTION: REVENUE OF $5,000 AND 15% PROFIT".
Definition quiet_plan : Py.str :=
  Py.lit "our team has a solution: revenue of $5,000 and 15% profit".

(** ** Facts about the string primitives *)

Example count_ex1 : Py.count (Py.lit "a team, the team") (Py.lit "team") = 2.
Proof. reflexivity. Qed.
Example count_ex2 : Py.count (Py.lit "aaaa") (Py.lit "aa") = 2.
Proof. reflexivity. Qed.
Example count_ex3 : Py.count (Py.lit "abc") [] = 4.
Proof. reflexivity. Qed.
Example split_ex1 :
  Py.split_ws (Py.lit "  two  words ") = [Py.lit "two"; Py.lit "words"].
Proof. reflexivity. Qed.
Example re_split_ex1 :
  Py.re_split_runs (λ c, (c =? 46)%N) (Py.lit "a..b.") = [Py.lit "a"; Py.lit "b"; []].
Proof. reflexivity. Qed.
Example currency_ex1 :
  Py.findall_count Py.match_currency (Py.lit "$ 1,000 and $x and $5") = 2.
Proof. reflexivity. Qed.
Example percent_ex1 :
  Py.findall_count Py.match_digits_percent (Py.lit "15% of 20 is 3%%") = 2.
Proof. reflexivity. Qed.

Lemma scan_nonneg m s skip : 0 ≤ Py.scan m s skip.
Proof.
  revert skip; induction s as [|c s IH]; intros skip; simpl.
  - destruct skip; [destruct (m []) |]; lia.
  - destruct skip as [|k]; [|apply IH].
    destruct (m (c :: s)); [specialize (IH (pred n)) | specialize (IH O)]; lia.
Qed.

Lemma count_nonneg s sub : 0 ≤ Py.count s sub.
Proof. apply scan_nonneg. Qed.

Lemma len_nonneg {A} (l : list A) : 0 ≤ Py.len l.
Proof. unfold Py.len; lia. Qed.

Lemma fold_add_nonneg l acc :
  0 ≤ acc → Forall (λ z, 0 ≤ z) l → 0 ≤ fold_left Z.add l acc.
Proof.
  revert acc; induction l as [|z l IH]; intros acc Hacc Hl; simpl; [done|].
  inversion Hl; subst. apply IH; [lia | done].
Qed.

Section Facts.
Context `{Py.CharDB}.

Lemma findall_count_nonneg m s : 0 ≤ Py.findall_count m s.
Proof. apply scan_nonneg. Qed.

Lemma _count_terms_nonneg text terms : 0 ≤ _count_terms text terms.
Proof.
  unfold _count_terms, sum_Z. apply fold_add_nonneg; [done|].
  apply Forall_fmap, Forall_forall; intros term _; apply count_nonneg.
Qed.

End Facts.

(** ** The feature dictionary *)

Lemma feature_bag_literal
    (text_length word_count sentence_count paragraph_count financial_terms
     market_terms strategy_terms team_terms product_terms risk_terms : Z)
    (has_sections : bool)
    (has_numbers has_percentages has_currency professional_terms
     positive_sentiment negative_sentiment : Z) :
  0 ≤ word_count → 0 ≤ financial_terms → 0 ≤ team_terms →
  0 ≤ has_percentages → 0 ≤ has_currency → 0 ≤ professional_terms →
  feature_bag (list_to_map [
    ("text_length", PInt text_length);
    ("word_count", PInt word_count);
    ("sentence_count", PInt sentence_count);
    ("paragraph_count", PInt paragraph_count);
    ("financial_terms", PInt financial_terms);
    ("market_terms", PInt market_terms);
    ("strategy_terms", PInt strategy_terms);
    ("team_terms", PInt team_terms);
    ("product_terms", PInt product_terms);
    ("risk_terms", PInt risk_terms);
    ("has_sections", PBool has_sections);
    ("has_numbers", PInt has_numbers);
    ("has_percentages", PInt has_percentages);
    ("has_currency", PInt has_currency);
    ("professional_terms", PInt professional_terms);
    ("positive_sentiment", PInt positive_sentiment);
    ("negative_sentiment", PInt negative_sentiment)
  ]).
Proof.
  intros; split; try (eexists; split; [reflexivity | done]).
  intros cid; unfold generic_key; simpl.
  repeat (rewrite lookup_insert_ne; [|discriminate]).
  apply lookup_empty.
Qed.

Section FeatureFacts.
Context `{Py.CharDB}.

Lemma analysis_data_feature_bag text :
  ∃ d, _perform_comprehensive_analysis text = Some d ∧ feature_bag d.
Proof.
  unfold _perform_comprehensive_analysis.
  change (Py.split text [10%N; 10%N])
    with (Some (Py.split_go [10%N; 10%N] text [] 0)).
  cbn [mbind option_bind].
  repeat match goal with
  | |- context [_load_business_keywords !! ?k] =>
      let E := fresh "E" in
      destruct (_load_business_keywords !! k) eqn:E;
        [clear E | by vm_compute in E]
  end.
  cbn [mbind option_bind].
  eexists; split; [reflexivity|].
  apply feature_bag_literal;
    auto using len_nonneg, findall_count_nonneg, _count_terms_nonneg.
Qed.

End FeatureFacts.

(** ** The criterion evaluator *)

Lemma Qmin_cap_bounds (x cap : Q) :
  (0 <= x)%Q → (0 <= cap)%Q → (0 <= Qmin x cap)%Q ∧ (Qmin x cap <= cap)%Q.
Proof. intros; split; [by apply Q.min_glb | apply Q.le_min_r]. Qed.

Lemma inject_Z_nonneg (z : Z) : 0 ≤ z → (0 <= inject_Z z)%Q.
Proof. intros Hz. change 0%Q with (inject_Z 0). by rewrite <- Zle_Qle. Qed.

Lemma scaled_count_nonneg (z : Z) (k : Q) :
  0 ≤ z → (0 <= k)%Q → (0 <= inject_Z z * k)%Q.
Proof. intros Hz Hk. apply inject_Z_nonneg in Hz. by apply Qmult_le_0_compat. Qed.

(** Brings the sign of every substring count of the goal into the context. *)
Ltac count_facts :=
  repeat match goal with
  | |- context [Py.count ?s ?t] =>
      lazymatch goal with
      | _ : 0 ≤ Py.count s t |- _ => fail
      | _ => pose proof (count_nonneg s t)
      end
  end.

Lemma fold_Qplus_scaled (k : Q) (l : list Z) (acc : Q) :
  (fold_left Qplus ((λ p, k * inject_Z p)%Q <$> l) acc
   == acc + k * inject_Z (fold_left Z.add l 0%Z))%Q.
Proof.
  assert (G : ∀ z acc,
    (fold_left Qplus ((λ p, k * inject_Z p)%Q <$> l) acc
     == acc + k * (inject_Z (fold_left Z.add l z) - inject_Z z))%Q).
  { induction l as [|p l IH]; intros z a; simpl.
    - ring.
    - rewrite (IH (z + p)), (inject_Z_plus z p). ring. }
  rewrite (G 0 acc). change (inject_Z 0) with 0%Q. ring.
Qed.

Section EvaluatorFacts.
Context `{Py.CharDB}.

Lemma criterion_score_returns c text_lower d :
  feature_bag d → is_Some (criterion_score c text_lower d).
Proof.
  intros [[? [E1 _]] [? [E2 _]] [? [E3 _]] [? [E4 _]] _ _ _].
  unfold criterion_score.
  repeat case_match; rewrite ?E1, ?E2, ?E3, ?E4; by eexists.
Qed.

Lemma criterion_score_bounds c text_lower d s rsn :
  feature_bag d → 0 ≤ c_max_points c →
  criterion_score c text_lower d = Some (s, rsn) →
  (0 <= s)%Q ∧ (s <= inject_Z (c_max_points c))%Q.
Proof.
  intros [[n1 [E1 P1]] [n2 [E2 P2]] [n3 [E3 P3]] [n4 [E4 P4]] _ _ G] Hmax.
  apply inject_Z_nonneg in Hmax.
  unfold criterion_score, dict_get. rewrite G.
  repeat case_match; rewrite ?E1, ?E2, ?E3, ?E4;
    cbn [mbind option_bind as_int default];
    intros [= <- _]; apply Qmin_cap_bounds; try done;
    try apply scaled_count_nonneg; try apply inject_Z_nonneg;
    try done; count_facts; try case_match; lia.
Qed.

(** Outside the five dedicated formulas the score is the capped value of
    an entry that a feature dictionary does not have. *)
Lemma criterion_score_generic c text_lower d s rsn :
  feature_bag d → dedicated (c_id c) = false → 0 ≤ c_max_points c →
  criterion_score c text_lower d = Some (s, rsn) → (s == 0)%Q.
Proof.
  intros HF Hd Hmax. apply inject_Z_nonneg in Hmax.
  unfold dedicated in Hd. unfold criterion_score, dict_get.
  rewrite (fb_no_criterion_terms d HF).
  repeat case_match; try (exfalso; lia).
  intros [= <- _]; cbn [default as_int]. apply Q.min_l.
  change (inject_Z 0 * 1)%Q with 0%Q. done.
Qed.

Lemma sub_scores_returns (team_score : Q) (cmax : Z) subs :
  cmax ≠ 0 →
  mapM (sub_score_of team_score cmax) subs
  = Some ((λ sub, {| ss_name := sc_name sub;
                     ss_max_points := sc_points sub;
                     ss_earned_points :=
                       (team_score / inject_Z cmax) * inject_Z (sc_points sub);
                     ss_description := sc_description sub |}) <$> subs).
Proof.
  intros Hne. apply mapM_Some_2, Forall2_fmap_r, Forall_Forall2_diag,
    Forall_forall.
  intros sub _. unfold sub_score_of.
  by destruct (Z.eqb_spec cmax 0).
Qed.

(** The shape of a criterion result. *)
Lemma evaluate_criterion_inv c text d r :
  c_max_points c ≠ 0 →
  _evaluate_criterion_with_rules c text d = Some r →
  criterion_id r = c_id c ∧ criterion_name r = c_name c ∧
  max_points r = c_max_points c ∧
  (∃ rsn, criterion_score c (Py.lower text) d = Some (earned_points r, rsn)) ∧
  sub_scores r =
    (λ sub, {| ss_name := sc_name sub;
               ss_max_points := sc_points sub;
               ss_earned_points :=
                 (earned_points r / inject_Z (c_max_points c))
                 * inject_Z (sc_points sub);
               ss_description := sc_description sub |}) <$> c_sub_criteria c.
Proof.
  intros Hne. unfold _evaluate_criterion_with_rules.
  destruct (criterion_score c (Py.lower text) d) as [[s rsn]|]; [|done].
  cbn [mbind option_bind]. rewrite sub_scores_returns by done.
  cbn [mbind option_bind]. intros [= <-]; simpl. eauto 10.
Qed.

Lemma evaluate_criterion_returns c text d :
  feature_bag d → c_max_points c ≠ 0 →
  is_Some (_evaluate_criterion_with_rules c text d).
Proof.
  intros HF Hne. unfold _evaluate_criterion_with_rules.
  destruct (criterion_score_returns c (Py.lower text) d HF) as [[s rsn] ->].
  cbn [mbind option_bind]. rewrite sub_scores_returns by done. by eexists.
Qed.

(** The loop computes the results in order and the running total. *)
Lemma evaluate_all_eq cs text d acc tot :
  evaluate_all cs text d acc tot
  = (rs ← mapM (λ c, _evaluate_criterion_with_rules c text d) cs;
     Some (acc ++ rs, fold_left Qplus (earned_points <$> rs) tot)).
Proof.
  revert acc tot; induction cs as [|c cs IH]; intros acc tot; simpl.
  - by rewrite app_nil_r.
  - destruct (_evaluate_criterion_with_rules c text d) as [r|]; [|done].
    cbn [mbind option_bind]. rewrite IH.
    destruct (mapM _ cs) as [rs|]; [|done]. simpl.
    by rewrite <- app_assoc.
Qed.

End EvaluatorFacts.

(** ** The recommendation generator *)

Lemma Qltb_lt (x y : Q) : Qltb x y = true ↔ (x < y)%Q.
Proof.
  unfold Qltb. rewrite negb_true_iff, <- not_true_iff_false, Qle_bool_iff.
  split; [apply Qnot_le_lt | apply Qlt_not_le].
Qed.

Lemma Qltb_ge (x y : Q) : Qltb x y = false ↔ (y <= x)%Q.
Proof.
  unfold Qltb. by rewrite negb_false_iff, Qle_bool_iff.
Qed.




Lemma insert_desc_perm x l : insert_desc x l ≡ₚ x :: l.
Proof.
  induction l as [|y l IH]; simpl; [done|].
  case_match; [|done]. by rewrite IH, Permutation_swap.
Qed.

Lemma sort_desc_perm l : sort_desc l ≡ₚ l.
Proof.
  induction l as [|x l IH]; simpl; [done|].
  by rewrite insert_desc_perm, IH.
Qed.



Section GeneratorFacts.
Context `{Py.CharDB}.

Lemma general_recommendations_returns d rs :
  general_keys_present d → is_Some (_generate_general_recommendations d rs).
Proof.
  intros ([? E1] & [? E2] & [? E3]).
  unfold _generate_general_recommendations. rewrite E1, E2, E3. by eexists.
Qed.

Lemma rule_based_recommendations_eq rs d :
  general_keys_present d →
  ∃ general,
    _generate_general_recommendations d rs = Some general ∧
    let specific :=
      specific_recommendations (sort_desc (omap weak_entry rs)) d in
    _generate_rule_based_recommendations rs d
    = Some (take 6 (if (length specific <? 3)%nat
                    then specific ++ general else specific)).
Proof.
  intros Hd.
  destruct (general_recommendations_returns d rs Hd) as [general E].
  exists general; split; [done|]. cbv zeta.
  unfold _generate_rule_based_recommendations. rewrite E.
  by case_match.
Qed.

Lemma feature_bag_general_keys d : feature_bag d → general_keys_present d.
Proof.
  intros [_ _ [? [E2 _]] _ [? [E1 _]] [? [E3 _]] _].
  repeat split; by eexists.
Qed.

End GeneratorFacts.

(** ** The static criteria *)

Lemma criteria_well_formed :
  Forall (λ c, 0 < c_max_points c
               ∧ sum_Z (sc_points <$> c_sub_criteria c) = c_max_points c)
         _initialize_criteria.
Proof.
  unfold _initialize_criteria.
  repeat (constructor; [split; [simpl; lia | reflexivity] |]). constructor.
Qed.

Lemma Forall2_with_left {A B} (P : A → Prop) (R : A → B → Prop) l k :
  Forall P l → Forall2 R l k → Forall2 (λ x y, P x ∧ R x y) l k.
Proof.
  intros HP HR; induction HR; inversion HP; subst; constructor; auto.
Qed.

Lemma fold_Qplus_le (f : EvaluationResult → Q) (g : EvaluationCriterion → Q)
    cs rs (a b : Q) :
  Forall2 (λ c r, (f r <= g c)%Q) cs rs → (a <= b)%Q →
  (fold_left Qplus (f <$> rs) a <= fold_left Qplus (g <$> cs) b)%Q.
Proof.
  intros HF; revert a b; induction HF as [|c r cs rs Hcr _ IH]; intros a b Hab;
    simpl; [done|].
  apply IH. lra.
Qed.

(** ** The whole analysis *)

Section AnalysisFacts.
Context `{Py.CharDB}.

(** What the evaluator guarantees for one criterion of the grid. *)
Lemma criterion_result_facts text d c r :
  feature_bag d → 0 < c_max_points c →
  _evaluate_criterion_with_rules c text d = Some r →
  criterion_id r = c_id c ∧ max_points r = c_max_points c
  ∧ (0 <= earned_points r)%Q
  ∧ (earned_points r <= inject_Z (max_points r))%Q
  ∧ (dedicated (criterion_id r) = false → (earned_points r == 0)%Q)
  ∧ (earned_points r <= rule_cap c)%Q.
Proof.
  intros HF Hmax E.
  assert (Hnn : 0 ≤ c_max_points c) by lia.
  apply evaluate_criterion_inv in E as (Eid & _ & Em & [rsn Es] & _); [|lia].
  pose proof (criterion_score_bounds _ _ _ _ _ HF Hnn Es) as [Hlo Hhi].
  rewrite Eid, Em. repeat split; try done.
  - intros Hd.
    by apply (criterion_score_generic _ _ _ _ _ HF Hd Hnn Es).
  - unfold rule_cap. destruct (dedicated (c_id c)) eqn:Hd; [done|].
    rewrite (criterion_score_generic _ _ _ _ _ HF Hd Hnn Es). done.
Qed.

(** The analysis always returns, and its result is assembled from the
    feature dictionary, the twelve criterion results in order, and the
    recommendations. *)
Lemma analyze_with_rules_spec text :
  ∃ d rs recs,
    _perform_comprehensive_analysis text = Some d ∧ feature_bag d
    ∧ Forall2 (λ c r, _evaluate_criterion_with_rules c text d = Some r)
              _initialize_criteria rs
    ∧ _generate_rule_based_recommendations rs d = Some recs
    ∧ _analyze_with_rules text =
        Some {| total_score := sum_Q (earned_points <$> rs);
                max_possible_score := 100;
                threshold_used := threshold;
                is_eligible :=
                  Qle_bool (inject_Z threshold)
                           (sum_Q (earned_points <$> rs));
                criteria_results := rs;
                summary :=
                  _generate_summary
                    (sum_Q (earned_points <$> rs))
                    (Qle_bool (inject_Z threshold)
                              (sum_Q (earned_points <$> rs)));
                recommendations := recs;
                analysis_method := "rule_based_comprehensive";
                confidence_score := 85%Q |}.
Proof.
  destruct (analysis_data_feature_bag text) as (d & Ed & HF).
  destruct (mapM_is_Some_2
              (λ c, _evaluate_criterion_with_rules c text d)
              _initialize_criteria) as [rs Ers].
  { eapply Forall_impl; [apply criteria_well_formed|].
    intros c [Hmax _]. apply evaluate_criterion_returns; [done | lia]. }
  destruct (rule_based_recommendations_eq rs d
              (feature_bag_general_keys d HF)) as (general & _ & Erec).
  cbv zeta in Erec.
  exists d, rs; eexists.
  split; [done|]. split; [done|]. split; [by apply mapM_Some_1|].
  split; [exact Erec|].
  unfold _analyze_with_rules. rewrite Ed. cbn [mbind option_bind].
  rewrite evaluate_all_eq, Ers. cbn [mbind option_bind app].
  by rewrite Erec.
Qed.

(** The twelve results, each with the guarantees of its criterion. *)
Lemma analysis_results_facts text d rs :
  feature_bag d →
  Forall2 (λ c r, _evaluate_criterion_with_rules c text d = Some r)
          _initialize_criteria rs →
  Forall2 (λ c r,
    criterion_id r = c_id c ∧ max_points r = c_max_points c
    ∧ (0 <= earned_points r)%Q
    ∧ (earned_points r <= inject_Z (max_points r))%Q
    ∧ (dedicated (criterion_id r) = false → (earned_points r == 0)%Q)
    ∧ (earned_points r <= rule_cap c)%Q) _initialize_criteria rs.
Proof.
  intros HF HR.
  eapply Forall2_impl;
    [exact (Forall2_with_left _ _ _ _ criteria_well_formed HR)|].
  intros c r [[Hmax _] E]. by apply (criterion_result_facts text d).
Qed.

End AnalysisFacts.

Lemma Forall2_right {A B} (R : A → B → Prop) (P : B → Prop) l k :
  Forall2 R l k → (∀ x y, R x y → P y) → Forall P k.
Proof. induction 1; intros HP; constructor; eauto. Qed.

Lemma Forall2_fmap_eq {A B C} (R : A → B → Prop) (f : A → C) (g : B → C) l k :
  Forall2 R l k → (∀ x y, R x y → g y = f x) → g <$> k = f <$> l.
Proof. induction 1; intros HP; simpl; [done|]. f_equal; eauto. Qed.

Lemma inject_Z_pos_neq (z : Z) : 0 < z → ¬ (inject_Z z == 0)%Q.
Proof. unfold Qeq; simpl. lia. Qed.

Section SubScoreFacts.
Context `{Py.CharDB}.

(** The sub-scores of one criterion result share out its earned points
    in proportion to the points of the sub-criteria. *)
Lemma sub_scores_proportional c text d r :
  0 < c_max_points c →
  sum_Z (sc_points <$> c_sub_criteria c) = c_max_points c →
  _evaluate_criterion_with_rules c text d = Some r →
  Forall2 (λ sub ss,
             ss_name ss = sc_name sub ∧ ss_max_points ss = sc_points sub
             ∧ (ss_earned_points ss ==
                earned_points r
                * (inject_Z (sc_points sub) / inject_Z (c_max_points c)))%Q)
          (c_sub_criteria c) (sub_scores r)
  ∧ (sum_Q (ss_earned_points <$> sub_scores r) == earned_points r)%Q.
Proof.
  intros Hmax Hsum E.
  pose proof (inject_Z_pos_neq _ Hmax) as Hne.
  apply evaluate_criterion_inv in E as (_ & _ & _ & _ & ->); [|lia].
  split.
  - apply Forall2_fmap_r, Forall_Forall2_diag, Forall_forall.
    intros sub _; simpl. repeat split. by field.
  - rewrite <- list_fmap_compose. unfold sum_Q.
    change (ss_earned_points ∘ _)
      with ((λ p, earned_points r / inject_Z (c_max_points c) * inject_Z p)%Q
            ∘ sc_points).
    rewrite list_fmap_compose, fold_Qplus_scaled.
    fold (sum_Z (sc_points <$> c_sub_criteria c)). rewrite Hsum. by field.
Qed.

End SubScoreFacts.

(** ** The claims about the analysis of an arbitrary text *)

Section AnalysisClaims.
Context `{Py.CharDB}.

(** C1: for every text the analysis returns; the feature dictionary has
    no [criterion_<id>_terms] entry, so every criterion other than 1, 2,
    4, 10 and 11 earns 0 points, the total is at most 55 and the plan is
    never eligible. *)
Theorem C1_generic_criteria_earn_nothing (text : Py.str) :
  ∃ d r,
    _perform_comprehensive_analysis text = Some d
    ∧ (∀ cid, d !! generic_key cid = None)
    ∧ _analyze_with_rules text = Some r
    ∧ Forall (λ cr, dedicated (criterion_id cr) = false
                    → (earned_points cr == 0)%Q) (criteria_results r)
    ∧ (total_score r <= 55)%Q
    ∧ is_eligible r = false.
Proof.
  destruct (analyze_with_rules_spec text)
    as (d & rs & recs & Ed & HF & HR & _ & Ea).
  pose proof (analysis_results_facts text d rs HF HR) as Hfacts.
  assert (Htot : (sum_Q (earned_points <$> rs) <= 55)%Q).
  { eapply Qle_trans.
    - apply (fold_Qplus_le earned_points rule_cap _initialize_criteria rs 0 0);
        [|done].
      eapply Forall2_impl; [exact Hfacts|]. by intros c r (_&_&_&_&_&?).
    - by vm_compute. }
  eexists d, _. split; [done|]. split; [apply HF|]. split; [exact Ea|].
  simpl. split; [|split; [done|]].
  - eapply Forall2_right; [exact Hfacts|]. by intros c r (_&_&_&_&?&_).
  - apply not_true_iff_false. rewrite Qle_bool_iff.
    change (inject_Z threshold) with 60%Q. lra.
Qed.

(** C4: for every text the analysis returns a result whose eligibility
    flag is exactly the test [total_score >= 60], 60 being the fixed
    threshold of the engine. *)
Theorem C4_eligible_iff_total_reaches_threshold (text : Py.str) :
  ∃ r,
    _analyze_with_rules text = Some r
    ∧ threshold = 60 ∧ threshold_used r = 60
    ∧ is_eligible r = Qle_bool 60 (total_score r)
    ∧ (is_eligible r = true ↔ (60 <= total_score r)%Q).
Proof.
  destruct (analyze_with_rules_spec text)
    as (d & rs & recs & _ & _ & _ & _ & Ea).
  eexists. split; [exact Ea|]. simpl.
  repeat split; try done; by apply Qle_bool_iff.
Qed.

(** C5: for every text the analysis returns exactly twelve criterion
    results, one for each criterion of the grid in order, and the total
    score is the sum of their earned points. *)
Theorem C5_twelve_results_summed (text : Py.str) :
  ∃ r,
    _analyze_with_rules text = Some r
    ∧ length (criteria_results r) = 12%nat
    ∧ criterion_id <$> criteria_results r
      = [1; 2; 3; 4; 5; 6; 7; 8; 9; 10; 11; 12]
    ∧ sum_Q (earned_points <$> criteria_results r) = total_score r.
Proof.
  destruct (analyze_with_rules_spec text)
    as (d & rs & recs & Ed & HF & HR & _ & Ea).
  pose proof (analysis_results_facts text d rs HF HR) as Hfacts.
  eexists. split; [exact Ea|]. simpl.
  split; [by rewrite <- (Forall2_length _ _ _ HR)|]. split; [|done].
  change [1; 2; 3; 4; 5; 6; 7; 8; 9; 10; 11; 12]
    with (c_id <$> _initialize_criteria).
  eapply Forall2_fmap_eq; [exact Hfacts|]. by intros c r (?&_).
Qed.

(** C6: for every text, every criterion result of the analysis has
    [0 <= earned_points <= max_points]; the maximum points of the twelve
    criteria, which are those of the results, add up to 100. *)
Theorem C6_earned_within_bounds (text : Py.str) :
  ∃ r,
    _analyze_with_rules text = Some r
    ∧ Forall (λ cr, (0 <= earned_points cr)%Q
                    ∧ (earned_points cr <= inject_Z (max_points cr))%Q)
             (criteria_results r)
    ∧ max_points <$> criteria_results r
      = c_max_points <$> _initialize_criteria
    ∧ sum_Z (c_max_points <$> _initialize_criteria) = 100.
Proof.
  destruct (analyze_with_rules_spec text)
    as (d & rs & recs & Ed & HF & HR & _ & Ea).
  pose proof (analysis_results_facts text d rs HF HR) as Hfacts.
  eexists. split; [exact Ea|]. simpl. split; [|split; [|done]].
  - eapply Forall2_right; [exact Hfacts|]. by intros c r (_&_&?&?&_).
  - apply (Forall2_fmap_eq _ c_max_points max_points _ _ Hfacts).
    by intros c r (_&?&_).
Qed.

(** C7: for every text and every criterion result of the analysis, each
    sub-score is the criterion's earned points times
    [sub.points / criterion.max_points], and the sub-scores add up to the
    criterion's earned points (exactly, scores being rationals). *)
Theorem C7_sub_scores_proportional (text : Py.str) :
  ∃ r,
    _analyze_with_rules text = Some r
    ∧ Forall2 (λ c cr,
        max_points cr = c_max_points c
        ∧ Forall2 (λ sub ss,
             ss_name ss = sc_name sub ∧ ss_max_points ss = sc_points sub
             ∧ (ss_earned_points ss ==
                earned_points cr
                * (inject_Z (sc_points sub) / inject_Z (c_max_points c)))%Q)
            (c_sub_criteria c) (sub_scores cr)
        ∧ (sum_Q (ss_earned_points <$> sub_scores cr) == earned_points cr)%Q)
      _initialize_criteria (criteria_results r).
Proof.
  destruct (analyze_with_rules_spec text)
    as (d & rs & recs & Ed & HF & HR & _ & Ea).
  eexists. split; [exact Ea|]. simpl.
  eapply Forall2_impl;
    [exact (Forall2_with_left _ _ _ _ criteria_well_formed HR)|].
  intros c r [[Hmax Hsum] E].
  split; [|by apply (sub_scores_proportional c text d)].
  apply evaluate_criterion_inv in E; [|lia]. tauto.
Qed.

End AnalysisClaims.

(** ** The generic branch of the evaluator *)

Section GenericBranch.
Context `{Py.CharDB}.


End GenericBranch.



(** ** Empty and dense texts *)

Section EmptyText.
Context `{Py.CharDB}.

(** On the empty text no character class is consulted, so the feature
    dictionary does not depend on the character database. *)
Lemma analysis_data_empty_any_db :
  _perform_comprehensive_analysis []
  = _perform_comprehensive_analysis (H:=Py.ascii_db) [].
Proof.
  unfold _perform_comprehensive_analysis, _check_sections.
  rewrite !Py.lower_empty. reflexivity.
Qed.

Lemma analyze_empty_any_db :
  _analyze_with_rules [] = _analyze_with_rules (H:=Py.ascii_db) [].
Proof.
  unfold _analyze_with_rules. rewrite analysis_data_empty_any_db.
  destruct (_perform_comprehensive_analysis []) as [d|]; [|done].
  cbn [mbind option_bind]. rewrite !evaluate_all_eq.
  unfold _evaluate_criterion_with_rules. rewrite !Py.lower_empty.
  reflexivity.
Qed.

(** C9: the empty text is analysed without an exception; the total score
    is 0, every criterion earns 0, the plan is not eligible and the list
    of recommendations is not empty. *)
Theorem C9_empty_text_scores_zero :
  ∃ r,
    _analyze_with_rules [] = Some r
    ∧ (total_score r == 0)%Q
    ∧ Forall (λ cr, (earned_points cr == 0)%Q) (criteria_results r)
    ∧ is_eligible r = false
    ∧ recommendations r ≠ []
    ∧ length (recommendations r) = 5%nat.
Proof.
  rewrite analyze_empty_any_db.
  assert (E : _analyze_with_rules (H:=Py.ascii_db) [] ≫= (λ r,
                Some (Qnum (total_score r),
                      forallb (λ cr, Qnum (earned_points cr) =? 0)
                              (criteria_results r),
                      is_eligible r, length (recommendations r)))
              = Some (0, true, false, 5%nat))
    by (vm_compute; reflexivity).
  destruct (_analyze_with_rules (H:=Py.ascii_db) []) as [r|];
    [|discriminate E].
  cbn [mbind option_bind] in E. injection E as Et Ec Ee El.
  exists r. split; [done|].
  assert (Hz : ∀ q : Q, Qnum q = 0 → (q == 0)%Q).
  { intros [n p]; unfold Qeq; simpl. lia. }
  split; [by apply Hz|]. split.
  - apply Forall_forall. intros cr Hcr. apply Hz, Z.eqb_eq.
    rewrite forallb_forall in Ec. apply Ec. by apply list_elem_of_In.
  - split; [done|]. split; [|done].
    intros Hnil. by rewrite Hnil in El.
Qed.

(** C10, as amended: the feature extractor returns for every text, and
    on the empty text every numeric feature is 0 and [has_sections] is
    false, except [sentence_count], which is 1 (splitting the empty text
    on the sentence marks leaves one empty piece). *)
Theorem C10_features_of_empty_text :
  (∀ text, is_Some (_perform_comprehensive_analysis text))
  ∧ ∃ d,
      _perform_comprehensive_analysis [] = Some d
      ∧ size d = 17%nat
      ∧ (λ key, d !! key) <$> feature_keys
        = [Some (PInt 0); Some (PInt 0); Some (PInt 1); Some (PInt 0);
           Some (PInt 0); Some (PInt 0); Some (PInt 0); Some (PInt 0);
           Some (PInt 0); Some (PInt 0); Some (PBool false);
           Some (PInt 0); Some (PInt 0); Some (PInt 0); Some (PInt 0);
           Some (PInt 0); Some (PInt 0)].
Proof.
  split.
  { intros text. destruct (analysis_data_feature_bag text) as (d & -> & _).
    by eexists. }
  rewrite analysis_data_empty_any_db.
  assert (E : _perform_comprehensive_analysis (H:=Py.ascii_db) [] ≫= (λ d,
                Some (size d, (λ key, d !! key) <$> feature_keys))
              = Some (17%nat,
                  [Some (PInt 0); Some (PInt 0); Some (PInt 1);
                   Some (PInt 0); Some (PInt 0); Some (PInt 0);
                   Some (PInt 0); Some (PInt 0); Some (PInt 0);
                   Some (PInt 0); Some (PBool false); Some (PInt 0);
                   Some (PInt 0); Some (PInt 0); Some (PInt 0);
                   Some (PInt 0); Some (PInt 0)]))
    by (vm_compute; reflexivity).
  destruct (_perform_comprehensive_analysis (H:=Py.ascii_db) []) as [d|];
    [|discriminate E].
  cbn [mbind option_bind] in E.
  apply (inj Some), pair_equal_spec in E as [Es El].
  exists d. split; [done|]. split; [exact Es | exact El].
Qed.

End EmptyText.

(** C10, as stated, fails: the feature dictionary of the empty text has
    [sentence_count] equal to 1, so not every numeric feature is zero. *)
Lemma C10_counterexample :
  ∃ d,
    _perform_comprehensive_analysis [] = Some d
    ∧ d !! "sentence_count" = Some (PInt 1)
    ∧ ¬ all_zero_or_false d.
Proof.
  assert (E : _perform_comprehensive_analysis [] ≫= (λ d,
                d !! "sentence_count") = Some (PInt 1))
    by (vm_compute; reflexivity).
  destruct (_perform_comprehensive_analysis []) as [d|]; [|discriminate E].
  cbn [mbind option_bind] in E.
  exists d. split; [done|]. split; [done|].
  intros Hall. by destruct (Hall "sentence_count" (PInt 1) E).
Qed.

(** C3, evaluated on the code: a plan of 5000 words in which every one of
    the nine keyword categories occurs at least 100 times earns the maximum
    of the five criteria that have a formula and nothing else, 55 points in
    all, and is not eligible; the empty text scores 0. *)
Theorem C3_dense_plan_stays_below_threshold :
  ∃ d r,
    _perform_comprehensive_analysis dense_plan = Some d
    ∧ (λ key, d !! key) <$>
        ["word_count"; "financial_terms"; "market_terms"; "strategy_terms";
         "team_terms"; "product_terms"; "risk_terms"; "professional_terms";
         "positive_sentiment"; "negative_sentiment"]
      = [Some (PInt 5000); Some (PInt 400); Some (PInt 200);
         Some (PInt 200); Some (PInt 300); Some (PInt 400);
         Some (PInt 200); Some (PInt 200); Some (PInt 200);
         Some (PInt 100)]
    ∧ _analyze_with_rules dense_plan = Some r
    ∧ (earned_points <$> criteria_results r : list Q)
      = [10; 10; 0; 15; 0; 0; 0; 0; 0; 10; 10; 0]%Q
    ∧ (total_score r == 55)%Q
    ∧ is_eligible r = false
    ∧ ∃ r0, _analyze_with_rules [] = Some r0 ∧ (total_score r0 == 0)%Q.
Proof.
  assert (Ed : _perform_comprehensive_analysis dense_plan ≫= (λ d,
                 Some ((λ key, d !! key) <$>
                   ["word_count"; "financial_terms"; "market_terms";
                    "strategy_terms"; "team_terms"; "product_terms";
                    "risk_terms"; "professional_terms";
                    "positive_sentiment"; "negative_sentiment"]))
               = Some [Some (PInt 5000); Some (PInt 400); Some (PInt 200);
                       Some (PInt 200); Some (PInt 300); Some (PInt 400);
                       Some (PInt 200); Some (PInt 200); Some (PInt 200);
                       Some (PInt 100)])
    by (vm_compute; reflexivity).
  assert (Er : _analyze_with_rules dense_plan ≫= (λ r,
                 Some (earned_points <$> criteria_results r,
                       total_score r, is_eligible r))
               = Some ([10; 10; 0; 15; 0; 0; 0; 0; 0; 10; 10; 0]%Q,
                       55%Q, false))
    by (vm_compute; reflexivity).
  assert (E0 : _analyze_with_rules [] ≫= (λ r, Some (Qnum (total_score r)))
               = Some 0)
    by (vm_compute; reflexivity).
  destruct (_perform_comprehensive_analysis dense_plan) as [d|];
    [|discriminate Ed].
  destruct (_analyze_with_rules dense_plan) as [r|]; [|discriminate Er].
  destruct (_analyze_with_rules []) as [r0|]; [|discriminate E0].
  cbn [mbind option_bind] in Ed, Er, E0.
  apply (inj Some) in Ed, E0.
  apply (inj Some), pair_equal_spec in Er as [Er Ei].
  apply pair_equal_spec in Er as [Ee Et].
  exists d, r. repeat (split; [done|]).
  split; [by rewrite Et|]. split; [done|].
  exists r0. split; [done|].
  destruct (total_score r0) as [n p]. unfold Qeq; simpl in *. lia.
Qed.

(** ** The claim about the recommendation generator *)


Lemma weak_entry_iff cr :
  is_Some (weak_entry cr) ↔ (performance_pct cr < 70)%Q.
Proof.
  unfold weak_entry. rewrite <- Qltb_lt.
  destruct (Qltb (performance_pct cr) 70); split; intros Hw; try done.
Qed.

(** [F64.round] does not see how a rational is written. *)
Lemma round_Qeq (x y : Q) : (x == y)%Q → F64.round x = F64.round y.
Proof. intros E. unfold F64.round. by rewrite (Qred_complete x y E). Qed.





(** The quotient and the percentage of no points are 0. *)
Lemma performance_of_zero (e x : Q) :
  (e == 0)%Q → F64.mul (F64.div e x) 100 = 0%Q.
Proof.
  intros E. unfold F64.mul, F64.div.
  rewrite (round_Qeq (e / x) 0) by (rewrite E; reflexivity).
  reflexivity.
Qed.


(** The arithmetic of the generator on known values: [1 / 10], the
    performance of 7 points out of 10 and of 8 out of 15, and the key of
    the latter. *)
Example f64_tenth :
  F64.div 1 (F64.of_int 10) = 3602879701896397 # 36028797018963968.
Proof. vm_compute. reflexivity. Qed.

Example performance_7_of_10 : performance_pct (result_of 11 10 7) = 70%Q.
Proof. vm_compute. reflexivity. Qed.

Example performance_8_of_15 :
  performance_pct (result_of 4 15 8) = 7505999378950827 # 140737488355328.
Proof. vm_compute. reflexivity. Qed.

Example key_8_of_15 :
  omap (λ cr, w ← weak_entry cr; Some (sort_key w)) [result_of 4 15 8]
  = [(8796093022207999 # 35184372088832, 15)].
Proof. vm_compute. reflexivity. Qed.




(** * Further properties of the engine *)

(** ** The feature dictionary, key by key *)

Lemma feature_literal_lookups
    (v1 v2 v3 v4 v5 v6 v7 v8 v9 v10 v11 v12 v13 v14 v15 v16 v17 : pyval) :
  let d : gmap string pyval :=
    list_to_map (zip feature_keys
      [v1; v2; v3; v4; v5; v6; v7; v8; v9; v10; v11; v12; v13; v14; v15;
       v16; v17]) in
  d !! "text_length" = Some v1 ∧ d !! "word_count" = Some v2
  ∧ d !! "sentence_count" = Some v3 ∧ d !! "paragraph_count" = Some v4
  ∧ d !! "financial_terms" = Some v5 ∧ d !! "market_terms" = Some v6
  ∧ d !! "strategy_terms" = Some v7 ∧ d !! "team_terms" = Some v8
  ∧ d !! "product_terms" = Some v9 ∧ d !! "risk_terms" = Some v10
  ∧ d !! "has_sections" = Some v11 ∧ d !! "has_numbers" = Some v12
  ∧ d !! "has_percentages" = Some v13 ∧ d !! "has_currency" = Some v14
  ∧ d !! "professional_terms" = Some v15
  ∧ d !! "positive_sentiment" = Some v16
  ∧ d !! "negative_sentiment" = Some v17
  ∧ ∀ key, key ∉ feature_keys → d !! key = None.
Proof.
  repeat (split; [reflexivity|]).
  intros key Hkey. unfold feature_keys in Hkey. simpl.
  repeat (rewrite lookup_insert_ne;
          [|intros <-; apply Hkey; set_solver]).
  apply lookup_empty.
Qed.

Section FeatureValueFacts.
Context `{Py.CharDB}.

Lemma analysis_data_eq text :
  _perform_comprehensive_analysis text
  = Some (list_to_map (zip feature_keys (feature_values text))).
Proof.
  unfold _perform_comprehensive_analysis, feature_values, keywords_of.
  change (Py.split text [10%N; 10%N])
    with (Some (Py.split_go [10%N; 10%N] text [] 0)).
  cbn [mbind option_bind].
  repeat match goal with
  | |- context [_load_business_keywords !! ?k] =>
      let E := fresh "E" in
      destruct (_load_business_keywords !! k) eqn:E;
        [clear E | by vm_compute in E]
  end.
  reflexivity.
Qed.

End FeatureValueFacts.

(** ** Shape of the feature dictionary *)

Lemma re_split_runs_go_length cls s cur in_run :
  (1 ≤ length (Py.re_split_runs_go cls s cur in_run))%nat.
Proof.
  revert cur in_run; induction s as [|c s IH]; intros cur in_run; simpl;
    [lia|].
  destruct (cls c); [destruct in_run|]; simpl; try apply IH. lia.
Qed.

Section ShapeFacts.
Context `{Py.CharDB}.

Lemma split_ws_go_length s cur :
  (length (Py.split_ws_go s cur)
   ≤ length s + match cur with [] => 0 | _ => 1 end)%nat.
Proof.
  revert cur; induction s as [|c s IH]; intros cur; simpl.
  - destruct cur; simpl; lia.
  - destruct (Py.isspace c).
    + destruct cur; simpl; specialize (IH []); simpl in IH; lia.
    + specialize (IH (c :: cur)); simpl in IH. destruct cur; lia.
Qed.

Lemma feature_values_nonneg text :
  Forall (λ v, match v with PInt n => 0 ≤ n | PBool _ => True end)
         (feature_values text).
Proof.
  unfold feature_values.
  repeat (constructor;
          [first [apply len_nonneg | apply _count_terms_nonneg
                 | apply findall_count_nonneg | exact I] |]).
  constructor.
Qed.

(** The value of every feature, and the absence of any other key. *)
Lemma analysis_data_lookups text :
  ∃ d,
    _perform_comprehensive_analysis text = Some d
    ∧ d !! "text_length" = Some (PInt (Py.len text))
    ∧ d !! "word_count" = Some (PInt (Py.len (Py.split_ws text)))
    ∧ d !! "sentence_count"
      = Some (PInt (Py.len (Py.re_split_runs is_sentence_mark text)))
    ∧ d !! "paragraph_count"
      = Some (PInt (Py.len (filter (λ p, nonblank p = true)
                                   (Py.split_go [10%N; 10%N] text [] 0))))
    ∧ d !! "financial_terms"
      = Some (PInt (_count_terms (Py.lower text) (keywords_of "financial")))
    ∧ d !! "market_terms"
      = Some (PInt (_count_terms (Py.lower text) (keywords_of "market")))
    ∧ d !! "strategy_terms"
      = Some (PInt (_count_terms (Py.lower text) (keywords_of "strategy")))
    ∧ d !! "team_terms"
      = Some (PInt (_count_terms (Py.lower text) (keywords_of "team")))
    ∧ d !! "product_terms"
      = Some (PInt (_count_terms (Py.lower text) (keywords_of "product")))
    ∧ d !! "risk_terms"
      = Some (PInt (_count_terms (Py.lower text) (keywords_of "risk")))
    ∧ d !! "has_sections" = Some (PBool (_check_sections text))
    ∧ d !! "has_numbers"
      = Some (PInt (Py.findall_count Py.match_digits text))
    ∧ d !! "has_percentages"
      = Some (PInt (Py.findall_count Py.match_digits_percent text))
    ∧ d !! "has_currency"
      = Some (PInt (Py.findall_count Py.match_currency text))
    ∧ d !! "professional_terms"
      = Some (PInt (_count_terms (Py.lower text)
                                 (keywords_of "professional")))
    ∧ d !! "positive_sentiment"
      = Some (PInt (_count_terms (Py.lower text) (keywords_of "positive")))
    ∧ d !! "negative_sentiment"
      = Some (PInt (_count_terms (Py.lower text) (keywords_of "negative")))
    ∧ ∀ key, key ∉ feature_keys → d !! key = None.
Proof.
  eexists. split; [apply analysis_data_eq|].
  unfold feature_values. apply feature_literal_lookups.
Qed.

(** X1: for every text the feature dictionary has exactly the seventeen
    keys of the literal: sixteen non-negative integer features and the
    boolean [has_sections]. *)
Theorem X1_feature_dictionary_schema (text : Py.str) :
  ∃ d,
    _perform_comprehensive_analysis text = Some d
    ∧ dom d = list_to_set feature_keys
    ∧ (∀ key, key ∈ feature_keys → key ≠ "has_sections" →
         ∃ n, d !! key = Some (PInt n) ∧ 0 ≤ n)
    ∧ ∃ b, d !! "has_sections" = Some (PBool b).
Proof.
  destruct (analysis_data_lookups text)
    as (d & Ed & H1 & H2 & H3 & H4 & H5 & H6 & H7 & H8 & H9 & H10 & H11
        & H12 & H13 & H14 & H15 & H16 & H17 & Hout).
  exists d. split; [done|]. split; [|split].
  - apply set_eq. intros key. rewrite elem_of_dom, elem_of_list_to_set.
    split.
    + intros Hs. destruct (decide (key ∈ feature_keys)) as [|Hn]; [done|].
      rewrite (Hout key Hn) in Hs. by destruct Hs.
    + unfold feature_keys. rewrite !elem_of_cons, elem_of_nil.
      intros Hk. repeat (destruct Hk as [->|Hk]; [eexists; eassumption|]).
      destruct Hk.
  - intros key Hk Hne. unfold feature_keys in Hk.
    rewrite !elem_of_cons, elem_of_nil in Hk.
    repeat (destruct Hk as [->|Hk];
            [first [eexists; split; [eassumption|];
                    first [apply len_nonneg | apply _count_terms_nonneg
                          | apply findall_count_nonneg]
                   | exfalso; apply Hne; reflexivity] |]).
    destruct Hk.
  - by eexists.
Qed.

(** X2: for every text [sentence_count] is at least 1, the empty text
    included, and [word_count] lies between 0 and [text_length], the
    number of characters. *)
Theorem X2_sentence_and_word_counts (text : Py.str) :
  ∃ d sentence_count word_count,
    _perform_comprehensive_analysis text = Some d
    ∧ d !! "sentence_count" = Some (PInt sentence_count)
    ∧ d !! "word_count" = Some (PInt word_count)
    ∧ d !! "text_length" = Some (PInt (Py.len text))
    ∧ 1 ≤ sentence_count
    ∧ 0 ≤ word_count ≤ Py.len text.
Proof.
  destruct (analysis_data_lookups text) as (d & Ed & H1 & H2 & H3 & _).
  exists d. do 2 eexists. repeat (split; [eassumption|]).
  unfold Py.len, Py.re_split_runs, Py.split_ws.
  pose proof (re_split_runs_go_length is_sentence_mark text [] false).
  pose proof (split_ws_go_length text []). simpl in *. lia.
Qed.

End ShapeFacts.


(** ** When the evaluator raises, and when a criterion is saturated *)

Lemma sub_scores_is_Some (team_score : Q) (cmax : Z) subs :
  is_Some (mapM (sub_score_of team_score cmax) subs)
  ↔ cmax ≠ 0 ∨ subs = [].
Proof.
  rewrite mapM_is_Some. unfold sub_score_of, compose.
  destruct (Z.eqb_spec cmax 0) as [->|Hne].
  - split.
    + intros HF. right. destruct subs as [|sub subs]; [done|].
      apply Forall_cons in HF as [[? ?] _]. done.
    + intros [?| ->]; [done | constructor].
  - split; [by left|]. intros _. apply Forall_forall. intros sub _. by eexists.
Qed.

Lemma scaled_threshold (n t : Z) (w cap : Q) :
  (0 < w)%Q → (cap <= inject_Z t * w)%Q → (inject_Z (t - 1) * w < cap)%Q →
  (t ≤ n → (Qmin (inject_Z n * w) cap == cap)%Q)
  ∧ (n < t → (Qmin (inject_Z n * w) cap == inject_Z n * w)%Q
             ∧ (inject_Z n * w < cap)%Q).
Proof.
  intros Hw Hhi Hlo. split.
  - intros Hn. apply Q.min_r. rewrite Zle_Qle in Hn.
    apply Qle_trans with (inject_Z t * w)%Q; [done|].
    apply Qmult_le_compat_r; [done | by apply Qlt_le_weak].
  - intros Hn. assert (Hn' : n ≤ t - 1) by lia. rewrite Zle_Qle in Hn'.
    assert (inject_Z n * w <= inject_Z (t - 1) * w)%Q
      by (apply Qmult_le_compat_r; [done | by apply Qlt_le_weak]).
    split; [apply Q.min_l|]; lra.
Qed.

Lemma lookups_present_or_missing (d : gmap string pyval) (keys : list string) :
  Forall (λ key, is_Some (d !! key)) keys
  ∨ Exists (λ key, d !! key = None) keys.
Proof.
  induction keys as [|key keys [IH|IH]].
  - left; constructor.
  - destruct (d !! key) eqn:E.
    + left. constructor; [by rewrite E|done].
    + right. by constructor.
  - right. by constructor.
Qed.

Section EvaluatorEdges.
Context `{Py.CharDB}.

Lemma criterion_score_is_Some c text_lower d :
  is_Some (criterion_score c text_lower d)
  ↔ Forall (λ key, is_Some (d !! key)) (required_keys (c_id c)).
Proof.
  unfold criterion_score, required_keys.
  remember (c_id c) as cid eqn:Ecid. clear Ecid.
  destruct (Z.eqb_spec cid 1) as [->|?];
    [|destruct (Z.eqb_spec cid 2) as [->|?];
      [|destruct (Z.eqb_spec cid 4) as [->|?];
        [|destruct (Z.eqb_spec cid 10) as [->|?];
          [|destruct (Z.eqb_spec cid 11) as [->|?]]]]];
    cbn [Z.eqb Pos.eqb];
    rewrite ?Forall_cons, ?Forall_nil;
    repeat match goal with
    | |- context [d !! ?k] => destruct (d !! k)
    end;
    cbn [mbind option_bind]; split; intros Hs;
    repeat match goal with
    | Hc : _ ∧ _ |- _ => destruct Hc
    | Hc : is_Some None |- _ => by destruct Hc
    end;
    try done; repeat split; by eexists.
Qed.

(** X3: when the integers of the dictionary, [max_points] and the points
    of the sub-criteria convert to floats, the evaluator raises exactly
    when a feature that the formula of the criterion subscripts is
    missing from the dictionary, or when [max_points] is 0 and there is a
    sub-criterion to divide for. *)
Theorem X3_evaluator_raises_iff
    (c : EvaluationCriterion) (text : Py.str) (d : gmap string pyval) :
  map_Forall (λ _ v, float_convertible (as_int v)) d →
  float_convertible (c_max_points c) →
  Forall (λ sub, float_convertible (sc_points sub)) (c_sub_criteria c) →
  _evaluate_criterion_with_rules c text d = None
  ↔ Exists (λ key, d !! key = None) (required_keys (c_id c))
    ∨ (c_max_points c = 0 ∧ c_sub_criteria c ≠ []).
Proof.
  intros _ _ _.
  assert (Hs : is_Some (_evaluate_criterion_with_rules c text d)
               ↔ Forall (λ key, is_Some (d !! key)) (required_keys (c_id c))
                 ∧ (c_max_points c ≠ 0 ∨ c_sub_criteria c = [])).
  { rewrite <- criterion_score_is_Some with (text_lower := Py.lower text).
    unfold _evaluate_criterion_with_rules.
    destruct (criterion_score c (Py.lower text) d) as [[s rsn]|];
      cbn [mbind option_bind].
    - rewrite <- (sub_scores_is_Some s).
      destruct (mapM _ _); cbn [mbind option_bind]; split.
      + intros _; split; by eexists.
      + intros _; by eexists.
      + by intros [? ?].
      + by intros [_ [? ?]].
    - split; [by intros [? ?] | by intros [[? ?] _]]. }
  rewrite eq_None_not_Some, Hs. clear Hs.
  split.
  - intros Hn.
    destruct (lookups_present_or_missing d (required_keys (c_id c)))
      as [HF|HE]; [right | by left].
    destruct (decide (c_max_points c = 0)) as [E0|N0];
      [|destruct Hn; split; [done | by left]].
    split; [done|]. intros En. apply Hn. split; [done | by right].
  - intros [HE|[E0 Nn]] [HF Hm].
    + apply Exists_exists in HE as (key & Hin & Hnone).
      rewrite Forall_forall in HF. specialize (HF key Hin).
      rewrite Hnone in HF. by destruct HF.
    + by destruct Hm.
Qed.

End EvaluatorEdges.

Section Saturation.
Context `{Py.CharDB}.

(** X4: on the grid, a criterion with a formula of its own earns its
    maximum exactly from 34 (criterion 1), 5 (2), 10 (4), 13 (10) and 17
    (11) indicators on; below that it earns its weight times the number of
    indicators, which is less than the maximum. *)
Theorem X4_full_marks_threshold
    (c : EvaluationCriterion) (text : Py.str) (d : gmap string pyval)
    (r : EvaluationResult) :
  c ∈ _initialize_criteria → dedicated (c_id c) = true →
  _evaluate_criterion_with_rules c text d = Some r →
  let n := indicators (c_id c) (Py.lower text) d in
  (full_marks_from (c_id c) ≤ n →
     (earned_points r == inject_Z (c_max_points c))%Q)
  ∧ (n < full_marks_from (c_id c) →
       (earned_points r == weight (c_id c) * inject_Z n)%Q
       ∧ (earned_points r < inject_Z (c_max_points c))%Q).
Proof.
  intros Hc Hd E. unfold _initialize_criteria in Hc.
  rewrite !elem_of_cons, elem_of_nil in Hc.
  repeat (destruct Hc as [->|Hc]; [try discriminate Hd|]);
    [| | | | | destruct Hc];
    (apply evaluate_criterion_inv in E as (_ & _ & _ & [rsn Es] & _);
       [|discriminate]);
    revert Es; unfold criterion_score, indicators, weight, full_marks_from;
    cbn [c_id c_max_points Z.eqb Pos.eqb];
    repeat match goal with
    | |- context [d !! ?k] => destruct (d !! k) as [?v|]
    end;
    cbn [mbind option_bind default from_option id]; try discriminate;
    intros Es; apply (inj Some), pair_equal_spec in Es as [<- _]; cbv zeta;
    rewrite ?inject_Z_mult;
    match goal with
    | |- context [Qmin (inject_Z ?n * ?w) (inject_Z ?cap)] =>
        match goal with
        | |- context [(?t ≤ n)] =>
            destruct (scaled_threshold n t w (inject_Z cap))
              as [Hfull Hpart];
            [reflexivity | unfold Qle; simpl; lia | reflexivity |]
        end
    end;
    (split; [exact Hfull|]);
    intros Hn; destruct (Hpart Hn) as [E1 E2];
    (split; [rewrite E1; apply Qmult_comm | by rewrite E1]).
Qed.

End Saturation.

(** ** Specific recommendations and their priority *)

Lemma recommendations_map_is_Some score cid :
  is_Some (recommendations_map score cid) ↔ 1 ≤ cid ≤ 12.
Proof.
  unfold recommendations_map.
  repeat match goal with
  | |- context [cid =? ?k] =>
      destruct (Z.eqb_spec cid k) as [->|?];
        [split; [lia | intros _; eexists; reflexivity]|]
  end.
  split; [by intros [? ?] | lia].
Qed.

Lemma priority_of_cases w :
  priority_of w = "CRITIQUE" ∨ priority_of w = "HAUTE"
  ∨ priority_of w = "MOYENNE" ∨ priority_of w = "FAIBLE".
Proof. unfold priority_of. repeat case_match; auto. Qed.

(** X5: a specific recommendation exists exactly for the criterion ids 1
    to 12; other ids are skipped without an error.  The recommendation is
    the priority label, [" - "], the title, [": "] and the content, so it
    is never empty and always kept by the generator. *)
Theorem X5_specific_recommendation_shape
    (w : WeakCriterion) (d : gmap string pyval) :
  (_generate_specific_recommendation w d = None ↔ ¬ (1 ≤ w_id w ≤ 12))
  ∧ ∀ rec, _generate_specific_recommendation w d = Some rec →
      (∃ title content,
         recommendations_map
           (format_1f (w_points w) +:+ "/" +:+ pretty (w_max_points w))
           (w_id w) = Some (title, content)
         ∧ rec = priority_of w +:+ " - " +:+ title +:+ ": " +:+ content)
      ∧ priority_of w ∈ priority_labels
      ∧ rec ≠ ""
      ∧ truthy (Some rec) = Some rec.
Proof.
  unfold _generate_specific_recommendation.
  pose proof (recommendations_map_is_Some
    (format_1f (w_points w) +:+ "/" +:+ pretty (w_max_points w)) (w_id w))
    as Hmap.
  destruct (recommendations_map _ (w_id w)) as [[title content]|];
    cbn [mbind option_bind].
  - split.
    + split; [done|]. intros Hn. destruct Hn. apply Hmap. by eexists.
    + intros rec [= <-].
      split; [by exists title, content|].
      unfold priority_labels.
      destruct (priority_of_cases w) as [E|[E|[E|E]]]; rewrite E;
        (split; [rewrite !elem_of_cons; auto 6 | by split]).
  - split; [|done]. split; [|done].
    intros _ Hid. destruct Hmap as [_ Hmap]. by destruct (Hmap Hid).
Qed.

(** X6: the priority label partitions the weak criteria: CRITIQUE for at
    least 10 points and a performance below 40; HAUTE for at least 10
    points otherwise, or a performance below 50; MOYENNE for fewer than 10
    points and a performance from 50 to below 60; FAIBLE for fewer than 10
    points and a performance of 60 or more. *)
Theorem X6_priority_partition (w : WeakCriterion) :
  (priority_of w = "CRITIQUE"
   ↔ 10 ≤ w_max_points w ∧ (w_performance w < 40)%Q)
  ∧ (priority_of w = "HAUTE"
     ↔ (10 ≤ w_max_points w ∧ (40 <= w_performance w)%Q)
       ∨ (w_max_points w < 10 ∧ (w_performance w < 50)%Q))
  ∧ (priority_of w = "MOYENNE"
     ↔ w_max_points w < 10
       ∧ (50 <= w_performance w)%Q ∧ (w_performance w < 60)%Q)
  ∧ (priority_of w = "FAIBLE"
     ↔ w_max_points w < 10 ∧ (60 <= w_performance w)%Q).
Proof.
  unfold priority_of.
  destruct (Z.leb_spec 10 (w_max_points w)) as [Hm|Hm];
    destruct (Qltb (w_performance w) 40) eqn:E40;
    destruct (Qltb (w_performance w) 50) eqn:E50;
    destruct (Qltb (w_performance w) 60) eqn:E60;
    cbn [andb orb];
    rewrite ?Qltb_lt, ?Qltb_ge in *;
    repeat split; intros; try discriminate; try lia; try lra;
    repeat match goal with
    | Hc : _ ∧ _ |- _ => destruct Hc
    | Hc : _ ∨ _ |- _ => destruct Hc
    end; try lia; try lra; auto.
Qed.

(** ** When the generator raises, and when it has nothing to say *)

Lemma general_recommendations_is_Some d rs :
  is_Some (_generate_general_recommendations d rs) ↔ general_keys_present d.
Proof.
  split; [|apply general_recommendations_returns].
  unfold _generate_general_recommendations, general_keys_present.
  destruct (d !! "word_count"); [|by intros [? ?]].
  destruct (d !! "has_currency"); [|by intros [? ?]].
  destruct (d !! "professional_terms"); [|by intros [? ?]].
  intros _. repeat split; by eexists.
Qed.

(** X7: on criterion results in the float range, the generator
    subscripts the feature dictionary only when fewer than three specific
    recommendations were produced: it raises exactly when that is the
    case and one of [word_count], [has_currency] and
    [professional_terms] is missing. *)
Theorem X7_generator_raises_iff
    (criteria_results : list EvaluationResult)
    (analysis_data : gmap string pyval) :
  Forall float_score criteria_results →
  _generate_rule_based_recommendations criteria_results analysis_data = None
  ↔ (length (specific_recommendations
               (sort_desc (omap weak_entry criteria_results))
               analysis_data) < 3)%nat
    ∧ ¬ general_keys_present analysis_data.
Proof.
  intros _.
  rewrite <- general_recommendations_is_Some with (rs := criteria_results).
  unfold _generate_rule_based_recommendations.
  destruct (Nat.ltb_spec
              (length (specific_recommendations
                         (sort_desc (omap weak_entry criteria_results))
                         analysis_data)) 3) as [Hlt|Hge].
  - destruct (_generate_general_recommendations analysis_data criteria_results);
      cbn [mbind option_bind]; split.
    + done.
    + intros [_ Hn]. destruct Hn. by eexists.
    + intros _. split; [done|]. by intros [? ?].
    + done.
  - cbn [mbind option_bind]. split; [done|]. intros [? _]. lia.
Qed.


(** ** Stability of the ranking *)

Lemma ranks_before_key_lt x y :
  ranks_before x y → key_lt (sort_key x) (sort_key y) = false.
Proof.
  unfold ranks_before, key_lt, sort_key, deficit; simpl.
  rewrite orb_false_iff, andb_false_iff, Qltb_ge, Z.ltb_ge.
  intros [Hlt|[Heq Hle]].
  - split; [by apply Qlt_le_weak|]. left.
    apply not_true_iff_false. rewrite Qeq_bool_iff. intros Heq.
    rewrite Heq in Hlt. by apply Qlt_irrefl in Hlt.
  - split; [|by right]. rewrite Heq. apply Qle_refl.
Qed.

Lemma insert_desc_front x l :
  Forall (ranks_before x) l → insert_desc x l = x :: l.
Proof.
  intros HF. destruct l as [|y l]; [done|]. simpl.
  apply Forall_cons in HF as [Hxy _].
  by rewrite (ranks_before_key_lt x y Hxy).
Qed.

(** X9: the ranking is stable: a list of weak criteria that is already in
    ranking order, ties included, is returned unchanged. *)
Theorem X9_ranking_keeps_sorted_input (l : list WeakCriterion) :
  StronglySorted ranks_before l → sort_desc l = l.
Proof.
  induction 1 as [|x l Hs IH Hx]; [done|]. simpl.
  rewrite IH. by apply insert_desc_front.
Qed.

(** ** The recommendations of an analysis *)

Lemma specific_recommendation_kept w d :
  1 ≤ w_id w ≤ 12 →
  is_Some (truthy (_generate_specific_recommendation w d)).
Proof.
  intros Hid. unfold _generate_specific_recommendation.
  destruct (proj2 (recommendations_map_is_Some
    (format_1f (w_points w) +:+ "/" +:+ pretty (w_max_points w)) (w_id w))
    Hid) as [[title content] ->].
  cbn [mbind option_bind].
  destruct (priority_of_cases w) as [E|[E|[E|E]]]; rewrite E; by eexists.
Qed.

Lemma omap_length_all {A B} (g : A → option B) (l : list A) :
  Forall (λ x, is_Some (g x)) l → length (omap g l) = length l.
Proof.
  induction 1 as [|x l [y Hy] _ IH]; [done|].
  change (omap g (x :: l))
    with (match g x with Some y => y :: omap g l | None => omap g l end).
  rewrite Hy. simpl. by rewrite IH.
Qed.

Lemma weak_entry_id cr w : weak_entry cr = Some w → w_id w = criterion_id cr.
Proof. unfold weak_entry. case_match; [|done]. by intros [= <-]. Qed.

Lemma omap_weak_ids (P : Z → Prop) (l : list EvaluationResult) :
  Forall (λ cr, P (criterion_id cr)) l →
  Forall (λ w, P (w_id w)) (omap weak_entry l).
Proof.
  induction 1 as [|cr l Hcr _ IH]; [constructor|].
  change (omap weak_entry (cr :: l))
    with (match weak_entry cr with
          | Some y => y :: omap weak_entry l
          | None => omap weak_entry l
          end).
  destruct (weak_entry cr) as [w|] eqn:E; [|done].
  constructor; [|done]. by rewrite (weak_entry_id cr w E).
Qed.

Lemma zero_points_weak cr :
  0 < max_points cr → (earned_points cr == 0)%Q → is_Some (weak_entry cr).
Proof.
  intros Hmax Hz. apply weak_entry_iff. unfold performance_pct.
  destruct (Z.ltb_spec 0 (max_points cr)); [|lia].
  by rewrite (performance_of_zero _ _ Hz).
Qed.

Lemma generic_results_weak (l : list EvaluationResult) :
  Forall (λ cr, 0 < max_points cr
                ∧ (dedicated (criterion_id cr) = false
                   → (earned_points cr == 0)%Q)) l →
  (length (filter (λ x, dedicated x = false) (criterion_id <$> l))
   ≤ length (omap weak_entry l))%nat.
Proof.
  induction 1 as [|cr l [Hmax Hz] _ IH]; [done|].
  change (omap weak_entry (cr :: l))
    with (match weak_entry cr with
          | Some y => y :: omap weak_entry l
          | None => omap weak_entry l
          end).
  rewrite fmap_cons, filter_cons.
  destruct (decide (dedicated (criterion_id cr) = false)) as [Hd|Hd].
  - destruct (zero_points_weak cr Hmax (Hz Hd)) as [w ->]. simpl. lia.
  - destruct (weak_entry cr); simpl; lia.
Qed.

Lemma grid_ids : Forall (λ c, 1 ≤ c_id c ≤ 12) _initialize_criteria.
Proof.
  unfold _initialize_criteria. repeat (constructor; [simpl; lia|]). constructor.
Qed.

Lemma grid_dedicated_points :
  Forall (λ c, dedicated (c_id c) = true → 10 ≤ c_max_points c)
         _initialize_criteria.
Proof.
  unfold _initialize_criteria.
  repeat (constructor; [simpl; intros; (lia || discriminate)|]). constructor.
Qed.

Lemma Forall_omap {A B} (g : A → option B) (P : B → Prop) (l : list A) :
  Forall (λ x, ∀ y, g x = Some y → P y) l → Forall P (omap g l).
Proof.
  induction 1 as [|x l Hx _ IH]; [constructor|].
  change (omap g (x :: l))
    with (match g x with Some y => y :: omap g l | None => omap g l end).
  destruct (g x) as [y|]; [|done]. constructor; [by apply Hx | done].
Qed.

Section RecommendationCount.
Context `{Py.CharDB}.

(** The recommendations of an analysis are the specific ones of the five
    top-ranked weak criteria. *)
Lemma analysis_recommendations text d rs recs :
  feature_bag d →
  Forall2 (λ c r, _evaluate_criterion_with_rules c text d = Some r)
          _initialize_criteria rs →
  _generate_rule_based_recommendations rs d = Some recs →
  (7 ≤ length (omap weak_entry rs))%nat
  ∧ recs = specific_recommendations (sort_desc (omap weak_entry rs)) d
  ∧ length recs = 5%nat.
Proof.
  intros HF HR Erec.
  pose proof (analysis_results_facts text d rs HF HR) as Hfacts.
  assert (Hids : criterion_id <$> rs = c_id <$> _initialize_criteria).
  { eapply Forall2_fmap_eq; [exact Hfacts|]. by intros c r (?&_). }
  assert (Hweak : (7 ≤ length (omap weak_entry rs))%nat).
  { etrans; [|apply generic_results_weak].
    - rewrite Hids. by vm_compute.
    - eapply Forall2_right;
        [exact (Forall2_with_left _ _ _ _ criteria_well_formed Hfacts)|].
      intros c r [[Hmax _] (_ & Em & _ & _ & Hz & _)]. rewrite Em. done. }
  assert (Hin : Forall (λ w, 1 ≤ w_id w ≤ 12)
                       (take 5 (sort_desc (omap weak_entry rs)))).
  { apply Forall_take. rewrite sort_desc_perm.
    apply (omap_weak_ids (λ i, 1 ≤ i ≤ 12)).
    eapply Forall2_right;
      [exact (Forall2_with_left _ _ _ _ grid_ids Hfacts)|].
    intros c r [Hc (Eid & _)]. by rewrite Eid. }
  assert (Hlen : length (specific_recommendations
                           (sort_desc (omap weak_entry rs)) d) = 5%nat).
  { unfold specific_recommendations. rewrite omap_length_all.
    - rewrite length_take, (Permutation_length (sort_desc_perm _)). lia.
    - eapply Forall_impl; [exact Hin|].
      intros w Hw. by apply specific_recommendation_kept. }
  destruct (rule_based_recommendations_eq rs d
              (feature_bag_general_keys d HF)) as (general & _ & Eg).
  cbv zeta in Eg. rewrite Erec, Hlen in Eg.
  change (5 <? 3)%nat with false in Eg.
  rewrite take_ge in Eg by lia. injection Eg as ->.
  by rewrite Hlen.
Qed.

(** X10: for every text the analysis gives exactly five recommendations,
    the specific ones of the five top-ranked weak criteria; the general
    recommendations are never issued, as the seven criteria without a
    formula are always weak. *)
Theorem X10_always_five_specific_recommendations (text : Py.str) :
  ∃ d r,
    _perform_comprehensive_analysis text = Some d
    ∧ _analyze_with_rules text = Some r
    ∧ (7 ≤ length (omap weak_entry (criteria_results r)))%nat
    ∧ recommendations r
      = specific_recommendations
          (sort_desc (omap weak_entry (criteria_results r))) d
    ∧ length (recommendations r) = 5%nat.
Proof.
  destruct (analyze_with_rules_spec text)
    as (d & rs & recs & Ed & HF & HR & Erec & Ea).
  exists d. eexists. split; [done|]. split; [exact Ea|]. cbn.
  by apply (analysis_recommendations text).
Qed.

(** A weak criterion of an analysis is worth 10 points or more, or has
    earned nothing. *)
Lemma analysis_weak_entries text d rs :
  feature_bag d →
  Forall2 (λ c r, _evaluate_criterion_with_rules c text d = Some r)
          _initialize_criteria rs →
  Forall (λ w, 10 ≤ w_max_points w ∨ (w_performance w == 0)%Q)
         (omap weak_entry rs).
Proof.
  intros HF HR.
  pose proof (analysis_results_facts text d rs HF HR) as Hfacts.
  apply Forall_omap.
  eapply Forall2_right;
    [exact (Forall2_with_left _ _ _ _ criteria_well_formed
              (Forall2_with_left _ _ _ _ grid_dedicated_points Hfacts))|].
  intros c r [[Hmax _] [Hded (Eid & Em & _ & _ & Hz & _)]] w.
  unfold weak_entry. case_match; [|done]. intros [= <-]; simpl.
  rewrite Eid in Hz. destruct (dedicated (c_id c)) eqn:Ed.
  - left. rewrite Em. by apply Hded.
  - right. unfold performance_pct.
    destruct (Z.ltb_spec 0 (max_points r)); [|done].
    by rewrite (performance_of_zero _ _ (Hz eq_refl)).
Qed.

(** X16: every recommendation of an analysis carries the priority
    CRITIQUE or HAUTE: the weak criteria of an analysis are worth at least
    10 points or have earned nothing. *)
Theorem X16_recommendations_are_urgent (text : Py.str) :
  ∃ r,
    _analyze_with_rules text = Some r
    ∧ Forall (λ rec, ∃ rest, rec = "CRITIQUE - " +:+ rest
                             ∨ rec = "HAUTE - " +:+ rest)
             (recommendations r).
Proof.
  destruct (analyze_with_rules_spec text)
    as (d & rs & recs & Ed & HF & HR & Erec & Ea).
  eexists. split; [exact Ea|]. cbn.
  destruct (analysis_recommendations text d rs recs HF HR Erec)
    as (_ & -> & _).
  unfold specific_recommendations. apply Forall_omap, Forall_take.
  rewrite sort_desc_perm.
  eapply Forall_impl; [exact (analysis_weak_entries text d rs HF HR)|].
  intros w Hw rec. unfold _generate_specific_recommendation.
  destruct (recommendations_map _ (w_id w)) as [[title content]|];
    [|done].
  cbn [mbind option_bind].
  assert (Hp : priority_of w = "CRITIQUE" ∨ priority_of w = "HAUTE").
  { unfold priority_of. destruct Hw as [Hm|Hz].
    - destruct (Z.leb_spec 10 (w_max_points w)); [|lia].
      destruct (Qltb (w_performance w) 40); auto.
    - assert (E40 : Qltb (w_performance w) 40 = true)
        by (apply Qltb_lt; rewrite Hz; reflexivity).
      assert (E50 : Qltb (w_performance w) 50 = true)
        by (apply Qltb_lt; rewrite Hz; reflexivity).
      rewrite E40, E50.
      destruct (10 <=? w_max_points w); auto. }
  destruct Hp as [-> | ->]; intros Hrec;
    (assert (Er : ∀ x y : string, truthy (Some x) = Some y → x = y)
       by (intros [|??] y; [discriminate | by intros [= ->]]));
    apply Er in Hrec as <-; eexists; [left | right]; reflexivity.
Qed.

End RecommendationCount.

(** ** The summary and the entry point *)

Section EntryPointFacts.
Context `{Py.CharDB}.

Lemma analysis_total_bound text d rs :
  feature_bag d →
  Forall2 (λ c r, _evaluate_criterion_with_rules c text d = Some r)
          _initialize_criteria rs →
  (sum_Q (earned_points <$> rs) <= 55)%Q.
Proof.
  intros HF HR.
  pose proof (analysis_results_facts text d rs HF HR) as Hfacts.
  eapply Qle_trans.
  - apply (fold_Qplus_le earned_points rule_cap _initialize_criteria rs 0 0);
      [|done].
    eapply Forall2_impl; [exact Hfacts|]. by intros c r (_&_&_&_&_&?).
  - by vm_compute.
Qed.

(** X11: for every text the summary of the rule-based analysis is the
    refusal sentence with the total score to one decimal; the acceptance
    sentence is never produced. *)
Theorem X11_summary_always_refuses (text : Py.str) :
  ∃ r,
    _analyze_with_rules text = Some r
    ∧ summary r
      = "Business plan évalué à " +:+ format_1f (total_score r)
        +:+ "/100. Score < 60/100. REFUSÉ pour l'incubation. Améliorations nécessaires.".
Proof.
  destruct (analyze_with_rules_spec text)
    as (d & rs & recs & Ed & HF & HR & _ & Ea).
  pose proof (analysis_total_bound text d rs HF HR) as Htot.
  eexists. split; [exact Ea|]. cbn [summary total_score].
  unfold _generate_summary.
  assert (E : Qle_bool (inject_Z threshold) (sum_Q (earned_points <$> rs))
              = false).
  { apply not_true_iff_false. rewrite Qle_bool_iff.
    change (inject_Z threshold) with 60%Q. lra. }
  by rewrite E.
Qed.

(** X12: for every text, [analyze_business_plan] in mode ["auto"] falls
    back to the rule-based path and returns the same analysis as mode
    ["rule_based"]; mode ["ai"] raises [NotImplementedError] and any other
    mode raises [ValueError]. *)
Theorem X12_entry_point_modes (text : Py.str) :
  ∃ r,
    _analyze_with_rules text = Some r
    ∧ analyze_business_plan text "auto" = inr r
    ∧ analyze_business_plan text "rule_based" = inr r
    ∧ analyze_business_plan text "ai" = inl NotImplementedError
    ∧ ∀ method, method ≠ "auto" → method ≠ "ai" → method ≠ "rule_based" →
        analyze_business_plan text method = inl ValueError.
Proof.
  destruct (analyze_with_rules_spec text)
    as (d & rs & recs & _ & _ & _ & _ & Ea).
  eexists. split; [exact Ea|].
  unfold analyze_business_plan. rewrite Ea. cbn.
  repeat split; try reflexivity.
  intros method H1 H2 H3.
  apply String.eqb_neq in H1, H2, H3. by rewrite H1, H2, H3.
Qed.

End EntryPointFacts.

(** ** Texts of white space only (ASCII database) *)

Lemma blank_small c : Py.ascii_isspace c = true → (c ≤ 32)%N.
Proof.
  unfold Py.ascii_isspace.
  rewrite orb_true_iff, !andb_true_iff, !N.leb_le. lia.
Qed.

Lemma scan_blank m s skip :
  (∀ t, blank t → m t = None) → blank s → Py.scan m s skip = 0.
Proof.
  intros Hm Hs; revert skip.
  induction Hs as [|c s Hc Hs IH]; intros skip; simpl.
  - rewrite (Hm [] ltac:(constructor)). by destruct skip.
  - destruct skip; [|apply IH].
    rewrite (Hm (c :: s)); [apply IH | by constructor].
Qed.

Lemma count_blank s sub : blank s → starts_with_mark sub → Py.count s sub = 0.
Proof.
  intros Hs Hsub. apply scan_blank; [|done].
  intros t Ht. destruct sub as [|c sub]; [done|]. simpl in Hsub.
  destruct Ht as [|d t Hd _]; simpl; [done|].
  destruct (N.eqb_spec c d) as [->|]; [|done]. congruence.
Qed.

Lemma fold_add_zeros l : Forall (λ z, z = 0) l → fold_left Z.add l 0 = 0.
Proof. induction 1 as [|z l -> _ IH]; simpl; [done | exact IH]. Qed.

Lemma _count_terms_blank s terms :
  blank s → Forall starts_with_mark terms → _count_terms s terms = 0.
Proof.
  intros Hs Ht. unfold _count_terms, sum_Z. apply fold_add_zeros.
  apply Forall_fmap. eapply Forall_impl; [exact Ht|].
  intros term Hterm. by apply count_blank.
Qed.

Lemma keywords_start_with_mark category :
  Forall starts_with_mark (keywords_of category).
Proof.
  unfold keywords_of.
  destruct (_load_business_keywords !! category) as [terms|] eqn:E;
    [|constructor].
  apply elem_of_map_to_list in E.
  assert (Hall : Forall (λ kv, Forall starts_with_mark kv.2)
                        (map_to_list _load_business_keywords)).
  { match goal with |- Forall _ ?l =>
      let l' := eval vm_compute in l in change l with l' end.
    repeat constructor. }
  rewrite Forall_forall in Hall. exact (Hall _ E).
Qed.

Lemma lower_blank s : blank s → Py.lower s = s.
Proof.
  induction 1 as [|c s Hc _ IH]; [done|]. simpl in *.
  rewrite IH. f_equal. unfold Py.ascii_lower_char.
  apply blank_small in Hc.
  destruct (N.leb_spec 65 c); [lia | done].
Qed.

Lemma split_ws_blank s : blank s → Py.split_ws s = [].
Proof.
  unfold Py.split_ws. induction 1 as [|c s Hc _ IH]; [done|]. simpl.
  change (Py.isspace c) with (Py.ascii_isspace c). by rewrite Hc.
Qed.

Lemma match_currency_blank t : blank t → Py.match_currency t = None.
Proof.
  destruct 1 as [|c t Hc _]; [done|]. simpl.
  apply blank_small in Hc. unfold Py.is_currency_symbol.
  destruct (N.eqb_spec c 36); [lia|].
  destruct (N.eqb_spec c 8364); [lia|].
  destruct (N.eqb_spec c 163); [lia | done].
Qed.

Lemma match_digits_percent_blank t :
  blank t → Py.match_digits_percent t = None.
Proof.
  destruct 1 as [|c t Hc _]; [done|]. simpl.
  change (Py.isdecimal c) with (Py.ascii_isdecimal c).
  apply blank_small in Hc. unfold Py.ascii_isdecimal.
  destruct (N.leb_spec 48 c); [lia | done].
Qed.

Lemma fold_Qplus_zeros (l : list Q) (acc : Q) :
  Forall (λ q, (q == 0)%Q) l → (fold_left Qplus l acc == acc)%Q.
Proof.
  intros Hl; revert acc; induction Hl as [|q l Hq _ IH]; intros acc; simpl;
    [reflexivity|].
  rewrite IH, Hq. ring.
Qed.

Lemma Qmin_zero (x cap : Q) :
  (x == 0)%Q → (0 <= cap)%Q → (Qmin x cap == 0)%Q.
Proof. intros Hx Hcap. rewrite Q.min_l; [done | by rewrite Hx]. Qed.

(** The formulas on a dictionary and a text without any indicator. *)
Lemma criterion_score_no_indicator c text_lower d s rsn :
  feature_bag d → 0 ≤ c_max_points c →
  d !! "team_terms" = Some (PInt 0) →
  d !! "financial_terms" = Some (PInt 0) →
  d !! "has_currency" = Some (PInt 0) →
  d !! "has_percentages" = Some (PInt 0) →
  (∀ sub, starts_with_mark sub → Py.count text_lower sub = 0) →
  criterion_score c text_lower d = Some (s, rsn) → (s == 0)%Q.
Proof.
  intros HF Hmax E1 E2 E3 E4 Hc. apply inject_Z_nonneg in Hmax.
  unfold criterion_score, dict_get.
  rewrite (fb_no_criterion_terms d HF), E1, E2, E3, E4.
  rewrite !Hc by (by vm_compute).
  repeat case_match; cbn [mbind option_bind as_int default from_option id];
    intros Es; apply (inj Some), pair_equal_spec in Es as [<- _];
    (apply Qmin_zero; [reflexivity | exact Hmax]).
Qed.

(** X13: a text made of ASCII white space only (blanks, tabs, line
    breaks) has no word; every criterion earns 0 points, the total is 0
    and the plan is not eligible. *)
Theorem X13_blank_text_scores_zero (text : Py.str) :
  Forall (λ c, Py.ascii_isspace c = true) text →
  ∃ d r,
    _perform_comprehensive_analysis text = Some d
    ∧ d !! "word_count" = Some (PInt 0)
    ∧ _analyze_with_rules text = Some r
    ∧ Forall (λ cr, (earned_points cr == 0)%Q) (criteria_results r)
    ∧ (total_score r == 0)%Q
    ∧ is_eligible r = false.
Proof.
  intros Hb. fold (blank text) in Hb.
  destruct (analyze_with_rules_spec text)
    as (d & rs & recs & Ed & HF & HR & _ & Ea).
  destruct (analysis_data_lookups text)
    as (d' & Ed' & _ & Hwc & _ & _ & Hfin & _ & _ & Hteam & _ & _ & _ & _
        & Hpct & Hcur & _).
  rewrite Ed in Ed'. injection Ed' as <-.
  rewrite (lower_blank text Hb) in Hfin, Hteam.
  rewrite _count_terms_blank in Hfin, Hteam
    by auto using keywords_start_with_mark.
  rewrite split_ws_blank in Hwc by done.
  unfold Py.findall_count in Hpct, Hcur.
  rewrite scan_blank in Hpct by auto using match_digits_percent_blank.
  rewrite scan_blank in Hcur by auto using match_currency_blank.
  assert (Hz : Forall (λ cr, (earned_points cr == 0)%Q) rs).
  { eapply Forall2_right;
      [exact (Forall2_with_left _ _ _ _ criteria_well_formed HR)|].
    intros c r [[Hmax _] E].
    apply evaluate_criterion_inv in E as (_ & _ & _ & [rsn Es] & _); [|lia].
    eapply (criterion_score_no_indicator c (Py.lower text) d);
      [done | lia | done | done | done | done | | exact Es].
    intros sub Hsub. rewrite (lower_blank text Hb). by apply count_blank. }
  assert (Ht : (sum_Q (earned_points <$> rs) == 0)%Q).
  { unfold sum_Q. apply fold_Qplus_zeros. by apply Forall_fmap. }
  exists d. eexists. split; [done|]. split; [exact Hwc|].
  split; [exact Ea|]. cbn. split; [done|]. split; [done|].
  apply not_true_iff_false. rewrite Qle_bool_iff, Ht. by vm_compute.
Qed.

(** ** The loop over an arbitrary grid *)

Section LoopFacts.
Context `{Py.CharDB}.

(** X14: the loop over the criteria is all or nothing: it raises exactly
    when the evaluation of some criterion raises, and otherwise returns
    one result per criterion, in order, with the sum of their earned
    points as total. *)
Theorem X14_loop_all_or_nothing
    (criteria : list EvaluationCriterion) (text : Py.str)
    (d : gmap string pyval) :
  (evaluate_all criteria text d [] 0%Q = None
   ↔ Exists (λ c, _evaluate_criterion_with_rules c text d = None) criteria)
  ∧ ∀ rs total,
      evaluate_all criteria text d [] 0%Q = Some (rs, total) →
      Forall2 (λ c r, _evaluate_criterion_with_rules c text d = Some r)
              criteria rs
      ∧ total = sum_Q (earned_points <$> rs).
Proof.
  rewrite evaluate_all_eq. split.
  - rewrite <- mapM_None. by destruct (mapM _ criteria).
  - intros rs total.
    destruct (mapM _ criteria) as [rs'|] eqn:E; [|done].
    cbn [mbind option_bind app]. intros [= <- <-].
    split; [by apply mapM_Some_1 | done].
Qed.

End LoopFacts.

(** ** Letter case (ASCII database) *)

Lemma same_letter_cases a b :
  same_letter a b →
  a = b ∨ ((65 ≤ a ≤ 90 ∨ 97 ≤ a ≤ 122) ∧ (65 ≤ b ≤ 90 ∨ 97 ≤ b ≤ 122))%N.
Proof.
  unfold same_letter, Py.ascii_lower_char.
  destruct (N.leb_spec 65 a), (N.leb_spec a 90), (N.leb_spec 65 b),
    (N.leb_spec b 90); simpl; lia.
Qed.

Lemma caseless_outside_letters (p : N → bool) :
  (∀ c, (65 ≤ c ≤ 90 ∨ 97 ≤ c ≤ 122)%N → p c = false) → caseless p.
Proof.
  intros Hp a b Hab.
  destruct (same_letter_cases a b Hab) as [->|[Ha Hb]]; [done|].
  by rewrite (Hp a Ha), (Hp b Hb).
Qed.

Lemma caseless_isspace : caseless Py.ascii_isspace.
Proof.
  apply caseless_outside_letters. intros c Hc. unfold Py.ascii_isspace.
  rewrite orb_false_iff, !andb_false_iff, !N.leb_gt. lia.
Qed.

Lemma caseless_isdecimal : caseless Py.ascii_isdecimal.
Proof.
  apply caseless_outside_letters. intros c Hc. unfold Py.ascii_isdecimal.
  rewrite !andb_false_iff, !N.leb_gt. lia.
Qed.

Lemma caseless_eqb (k : N) :
  ¬ (65 ≤ k ≤ 90 ∨ 97 ≤ k ≤ 122)%N → caseless (λ c, (c =? k)%N).
Proof.
  intros Hk. apply caseless_outside_letters. intros c Hc.
  apply N.eqb_neq. lia.
Qed.

Lemma caseless_is_amount_char : caseless Py.is_amount_char.
Proof.
  intros a b Hab. unfold Py.is_amount_char.
  change (Py.isdecimal a) with (Py.ascii_isdecimal a).
  change (Py.isdecimal b) with (Py.ascii_isdecimal b).
  rewrite (caseless_isdecimal a b Hab).
  by rewrite (caseless_eqb 44 ltac:(lia) a b Hab).
Qed.

Lemma caseless_is_currency_symbol : caseless Py.is_currency_symbol.
Proof.
  intros a b Hab. unfold Py.is_currency_symbol.
  rewrite (caseless_eqb 36 ltac:(lia) a b Hab).
  rewrite (caseless_eqb 8364 ltac:(lia) a b Hab).
  by rewrite (caseless_eqb 163 ltac:(lia) a b Hab).
Qed.

Lemma lower_eq_same_letters s t :
  Py.lower s = Py.lower t → Forall2 same_letter s t.
Proof.
  simpl. revert t; induction s as [|a s IH]; intros [|b t] E;
    try discriminate E; [constructor|].
  injection E as Eab E. constructor; [exact Eab | by apply IH].
Qed.

Lemma run_length_caseless p s t :
  caseless p → Forall2 same_letter s t →
  Py.run_length p s = Py.run_length p t.
Proof.
  intros Hp. induction 1 as [|a b s t Hab _ IH]; simpl; [done|].
  by rewrite (Hp a b Hab), IH.
Qed.

Lemma match_digits_percent_caseless s t :
  Forall2 same_letter s t →
  Py.match_digits_percent s = Py.match_digits_percent t.
Proof.
  induction 1 as [|a b s t Hab Hst IH]; simpl; [done|].
  change (Py.isdecimal a) with (Py.ascii_isdecimal a).
  change (Py.isdecimal b) with (Py.ascii_isdecimal b).
  rewrite (caseless_isdecimal a b Hab), IH.
  destruct Hst as [|c e s t Hce _]; [done|].
  by rewrite (caseless_eqb 37 ltac:(lia) c e Hce).
Qed.

Lemma match_ws_amount_caseless s t :
  Forall2 same_letter s t → Py.match_ws_amount s = Py.match_ws_amount t.
Proof.
  induction 1 as [|a b s t Hab Hst IH]; [done|].
  cbn [Py.match_ws_amount].
  change (Py.isspace a) with (Py.ascii_isspace a).
  change (Py.isspace b) with (Py.ascii_isspace b).
  rewrite (caseless_isspace a b Hab), IH.
  rewrite (run_length_caseless Py.is_amount_char (a :: s) (b :: t));
    [done | apply caseless_is_amount_char | by constructor].
Qed.

Lemma match_currency_caseless s t :
  Forall2 same_letter s t → Py.match_currency s = Py.match_currency t.
Proof.
  destruct 1 as [|a b s t Hab Hst]; [done|]. simpl.
  by rewrite (caseless_is_currency_symbol a b Hab),
    (match_ws_amount_caseless s t Hst).
Qed.

Lemma scan_caseless m s t skip :
  (∀ s t, Forall2 same_letter s t → m s = m t) →
  Forall2 same_letter s t → Py.scan m s skip = Py.scan m t skip.
Proof.
  intros Hm Hst; revert skip.
  induction Hst as [|a b s t Hab Hst IH]; intros skip; simpl; [done|].
  destruct skip; [|apply IH].
  rewrite (Hm (a :: s) (b :: t)) by by constructor.
  destruct (m (b :: t)); by rewrite IH.
Qed.

Lemma split_ws_go_caseless s t (cur cur' : Py.str) :
  Forall2 same_letter s t →
  match cur, cur' with
  | [], [] | _ :: _, _ :: _ => True
  | _, _ => False
  end →
  length (Py.split_ws_go s cur) = length (Py.split_ws_go t cur').
Proof.
  intros Hst; revert cur cur'.
  induction Hst as [|a b s t Hab _ IH]; intros cur cur' Hcur; simpl.
  - by destruct cur, cur'.
  - change (Py.isspace a) with (Py.ascii_isspace a).
    change (Py.isspace b) with (Py.ascii_isspace b).
    rewrite (caseless_isspace a b Hab).
    destruct (Py.ascii_isspace b); [|by apply IH].
    destruct cur, cur'; try done; simpl; by rewrite (IH [] []).
Qed.

Lemma specific_recommendations_any_dict l (d d' : gmap string pyval) :
  specific_recommendations l d = specific_recommendations l d'.
Proof. reflexivity. Qed.

(** X15: the analysis does not see the case of letters: two ASCII texts
    with the same lower-case form get the same analysis: scores,
    eligibility, summary and recommendations. *)
Theorem X15_analysis_ignores_letter_case (s t : Py.str) :
  ascii_text s → ascii_text t →
  Py.lower s = Py.lower t → _analyze_with_rules s = _analyze_with_rules t.
Proof.
  intros _ _ Hl. pose proof (lower_eq_same_letters s t Hl) as Hst.
  destruct (analysis_data_feature_bag s) as (ds & Eds & Fs).
  destruct (analysis_data_feature_bag t) as (dt & Edt & Ft).
  destruct (analysis_data_lookups s)
    as (ds' & Eds' & _ & Hwc_s & _ & _ & Hfin_s & _ & _ & Hteam_s & _ & _
        & _ & _ & Hpct_s & Hcur_s & Hprof_s & _).
  destruct (analysis_data_lookups t)
    as (dt' & Edt' & _ & Hwc_t & _ & _ & Hfin_t & _ & _ & Hteam_t & _ & _
        & _ & _ & Hpct_t & Hcur_t & Hprof_t & _).
  rewrite Eds in Eds'. injection Eds' as <-.
  rewrite Edt in Edt'. injection Edt' as <-.
  rewrite Hl in Hfin_s, Hteam_s, Hprof_s.
  unfold Py.findall_count in *.
  rewrite (scan_caseless _ s t 0 match_digits_percent_caseless Hst) in Hpct_s.
  rewrite (scan_caseless _ s t 0 match_currency_caseless Hst) in Hcur_s.
  assert (Hwc : Py.len (Py.split_ws s) = Py.len (Py.split_ws t)).
  { unfold Py.len, Py.split_ws.
    by rewrite (split_ws_go_caseless s t [] [] Hst I). }
  rewrite Hwc in Hwc_s.
  assert (Hev : ∀ c, _evaluate_criterion_with_rules c s ds
                     = _evaluate_criterion_with_rules c t dt).
  { intros c. unfold _evaluate_criterion_with_rules, criterion_score,
      dict_get.
    rewrite (fb_no_criterion_terms ds Fs), (fb_no_criterion_terms dt Ft).
    by rewrite Hteam_s, Hteam_t, Hfin_s, Hfin_t, Hcur_s, Hcur_t, Hpct_s,
      Hpct_t, Hl. }
  unfold _analyze_with_rules. rewrite Eds, Edt. cbn [mbind option_bind].
  rewrite !evaluate_all_eq.
  rewrite (mapM_ext _ _ _ Hev).
  destruct (mapM _ _initialize_criteria) as [rs|]; [|done].
  cbn [mbind option_bind app].
  assert (Hrec : _generate_rule_based_recommendations rs ds
                 = _generate_rule_based_recommendations rs dt).
  { unfold _generate_rule_based_recommendations,
      _generate_general_recommendations.
    rewrite (specific_recommendations_any_dict _ ds dt).
    by rewrite Hwc_s, Hwc_t, Hcur_s, Hcur_t, Hprof_s, Hprof_t. }
  by rewrite Hrec.
Qed.

(** ** Instances of the conditional statements *)

Lemma X4_full_marks_witness :
  ∃ r,
    _evaluate_criterion_with_rules (criterion_at 0) short_plan
      {[ "team_terms" := PInt 40 ]} = Some r
    ∧ (earned_points r == inject_Z (c_max_points (criterion_at 0)))%Q.
Proof.
  destruct (_evaluate_criterion_with_rules (criterion_at 0) short_plan
              {[ "team_terms" := PInt 40 ]}) as [r|] eqn:E;
    [|discriminate E].
  exists r. split; [reflexivity|].
  refine (proj1 (X4_full_marks_threshold (criterion_at 0) short_plan
                   {[ "team_terms" := PInt 40 ]} r _ _ E) _).
  - apply elem_of_cons. left. reflexivity.
  - reflexivity.
  - discriminate.
Defined.


Lemma X9_ranking_witness :
  StronglySorted ranks_before ranked_sample
  ∧ sort_desc ranked_sample = ranked_sample.
Proof.
  assert (Hs : StronglySorted ranks_before ranked_sample).
  { apply SSorted_cons; [apply SSorted_cons; [apply SSorted_cons|]|].
    - apply SSorted_nil.
    - apply List.Forall_nil.
    - apply List.Forall_cons; [left; reflexivity | apply List.Forall_nil].
    - apply List.Forall_cons; [right; split; [reflexivity | simpl; lia]|].
      apply List.Forall_cons; [left; reflexivity | apply List.Forall_nil]. }
  split; [exact Hs | exact (X9_ranking_keeps_sorted_input ranked_sample Hs)].
Defined.

Lemma X13_blank_text_witness :
  ∃ d r,
    _perform_comprehensive_analysis blank_text = Some d
    ∧ d !! "word_count" = Some (PInt 0)
    ∧ _analyze_with_rules blank_text = Some r
    ∧ Forall (λ cr, (earned_points cr == 0)%Q) (criteria_results r)
    ∧ (total_score r == 0)%Q
    ∧ is_eligible r = false.
Proof.
  apply (X13_blank_text_scores_zero blank_text).
  repeat constructor.
Defined.

Lemma X15_letter_case_witness :
  ascii_text shouting_plan ∧ ascii_text quiet_plan
  ∧ Py.lower shouting_plan = Py.lower quiet_plan
  ∧ _analyze_with_rules shouting_plan = _analyze_with_rules quiet_plan.
Proof.
  assert (Hs : ascii_text shouting_plan) by (repeat constructor).
  assert (Ht : ascii_text quiet_plan) by (repeat constructor).
  assert (Hl : Py.lower shouting_plan = Py.lower quiet_plan) by reflexivity.
  split; [exact Hs|]. split; [exact Ht|]. split; [exact Hl|].
  exact (X15_analysis_ignores_letter_case shouting_plan quiet_plan Hs Ht Hl).
Defined.

Lemma X3_evaluator_raises_witness :
  _evaluate_criterion_with_rules (criterion_at 0) short_plan ∅ = None
  ∧ is_Some (_evaluate_criterion_with_rules (criterion_at 0) short_plan
               {[ "team_terms" := PInt 7 ]}).
Proof.
  assert (Hmax : float_convertible (c_max_points (criterion_at 0)))
    by (vm_compute; reflexivity).
  assert (Hsub : Forall (λ sub, float_convertible (sc_points sub))
                        (c_sub_criteria (criterion_at 0)))
    by (repeat constructor).
  split.
  - apply (X3_evaluator_raises_iff (criterion_at 0) short_plan ∅);
      [apply map_Forall_empty | exact Hmax | exact Hsub |].
    left. apply Exists_cons_hd. reflexivity.
  - apply not_eq_None_Some.
    intros E.
    apply (X3_evaluator_raises_iff (criterion_at 0) short_plan
             {[ "team_terms" := PInt 7 ]}) in E;
      [| apply map_Forall_singleton; vm_compute; reflexivity
       | exact Hmax | exact Hsub].
    destruct E as [E|[E _]]; [|discriminate E].
    apply Exists_cons in E as [E|E]; [discriminate E|].
    by apply Exists_nil in E.
Defined.

Lemma X7_generator_raises_witness :
  Forall float_score close_results
  ∧ _generate_rule_based_recommendations close_results ∅ = None.
Proof.
  assert (Hfloat : Forall float_score close_results)
    by (repeat constructor; vm_compute; congruence).
  split; [exact Hfloat|].
  apply (X7_generator_raises_iff close_results ∅ Hfloat). split.
  - assert (E : length (specific_recommendations
                          (sort_desc (omap weak_entry close_results)) ∅)
                = 2%nat) by (vm_compute; reflexivity).
    rewrite E. lia.
  - intros [[v Hv] _]. discriminate Hv.
Defined.
